(** * Agentic AI framework: session store, chat driver, rule-based
      natural-language-to-SQL translator, Oracle connector and agent registry.

    Shallow embedding of
      - src/agents/agent_registry.py      (BaseAgent, AgentRegistry)
      - src/agents/database_chat_agent.py (OracleConnector, DatabaseChatAgent)
      - src/main.py                       (AgentManager)
      - src/config/agent_config.py        (get_available_agents)

    Python [str] values are modelled as [string] (sequences of 8-bit
    characters); [lower], [upper], [strip] and [\d] act on the ASCII range, which
    is where every keyword and table name of the program lives.  The Streamlit
    store [st.session_state] is a finite map from keys to values, the clock
    [datetime.now()] is an explicit reading passed to the operation that
    consults it, and a Python exception is a value of type [exn] returned on
    the left of a sum. *)

From Stdlib Require Import ZArith Ascii String List Bool Lia.
From stdpp Require Import base option strings list gmap fin_maps pretty.

Set Warnings "-register-all".
Set Default Proof Using "Type".


(** ** Python string primitives *)

Module PyStr.

Definition is_upper (c : ascii) : bool :=
  let n := nat_of_ascii c in (65 <=? n)%nat && (n <=? 90)%nat.

Definition is_lower (c : ascii) : bool :=
  let n := nat_of_ascii c in (97 <=? n)%nat && (n <=? 122)%nat.

Definition is_digit (c : ascii) : bool :=
  let n := nat_of_ascii c in (48 <=? n)%nat && (n <=? 57)%nat.

(** [str.isspace] on the ASCII range: TAB, LF, VT, FF, CR, FS, GS, RS, US
    and SPACE. *)
Definition is_space (c : ascii) : bool :=
  let n := nat_of_ascii c in
  ((9 <=? n)%nat && (n <=? 13)%nat) || ((28 <=? n)%nat && (n <=? 32)%nat).

Definition lower_char (c : ascii) : ascii :=
  if is_upper c then ascii_of_nat (nat_of_ascii c + 32) else c.

Definition upper_char (c : ascii) : ascii :=
  if is_lower c then ascii_of_nat (nat_of_ascii c - 32) else c.

Fixpoint map_str (f : ascii -> ascii) (s : string) : string :=
  match s with
  | EmptyString => EmptyString
  | String c r => String (f c) (map_str f r)
  end.

(** [s.lower()] and [s.upper()] *)
Definition lower : string -> string := map_str lower_char.
Definition upper : string -> string := map_str upper_char.

(** [s.startswith(p)] *)
Fixpoint startswith (p s : string) : bool :=
  match p, s with
  | EmptyString, _ => true
  | String _ _, EmptyString => false
  | String a p', String b s' => if Ascii.eqb a b then startswith p' s' else false
  end.

(** [needle in hay] for two strings: [needle] occurs at some offset. *)
Fixpoint str_in (needle hay : string) : bool :=
  startswith needle hay ||
  match hay with
  | EmptyString => false
  | String _ rest => str_in needle rest
  end.

(** [any(w in s for w in words)] *)
Definition any_in (words : list string) (s : string) : bool :=
  existsb (fun w => str_in w s) words.

(** Truth value of a string in a condition: non-empty. *)
Definition truthy (s : string) : bool :=
  match s with EmptyString => false | String _ _ => true end.

Fixpoint lstrip (s : string) : string :=
  match s with
  | EmptyString => EmptyString
  | String c r => if is_space c then lstrip r else s
  end.

Fixpoint rstrip (s : string) : string :=
  match s with
  | EmptyString => EmptyString
  | String c r =>
      match rstrip r with
      | EmptyString => if is_space c then EmptyString else String c EmptyString
      | r' => String c r'
      end
  end.

(** [s.strip()] *)
Definition strip (s : string) : string := rstrip (lstrip s).

Fixpoint take_digits (s : string) : string :=
  match s with
  | EmptyString => EmptyString
  | String c r => if is_digit c then String c (take_digits r) else EmptyString
  end.

(** First element of [re.findall(r'\d+', s)], if the list is not empty:
    the leftmost maximal run of digits. *)
Fixpoint first_number (s : string) : option string :=
  match s with
  | EmptyString => None
  | String c r => if is_digit c then Some (take_digits s) else first_number r
  end.

(** Whether every character of [s] is in the ASCII range, where the
    functions above coincide with [str.lower], [str.upper], [str.strip] and
    the pattern [\d] of Python. *)
Fixpoint is_ascii (s : string) : bool :=
  match s with
  | EmptyString => true
  | String c r => (nat_of_ascii c <? 128)%nat && is_ascii r
  end.

End PyStr.

(** ** Exceptions *)

(** A raised Python exception, as far as the program tells them apart: the
    handlers of the registry distinguish [ImportError] from every other
    subclass of [Exception].  [str_exn e] is [str(e)]. *)
Inductive exn : Type :=
| ImportError (msg : string)
| Exception (msg : string).

Definition str_exn (e : exn) : string :=
  match e with ImportError m => m | Exception m => m end.

(** ** OracleConnector (database_chat_agent.py, lines 21-157) *)

Module Oracle.

(** A [pd.DataFrame] built from [cursor.description] and [fetchall()]. *)
Record DataFrame : Type := mkDataFrame {
  df_columns : list string;
  df_rows : list (list string)
}.

(** The live driver handle ([cx_Oracle] connection).  Its fields are the
    answers of the database behind it: what a cursor yields for a statement,
    and whether [commit()] and [close()] raise. *)
Record Connection : Type := mkConnection {
  db_run : string -> exn + DataFrame;
  db_commit : option exn;
  db_close : option exn
}.

(** Calls that reach the driver, in the order they are made. *)
Inductive DriverCall : Type :=
| CallCursor
| CallExecute (sql : string)
| CallFetchall
| CallCommit
| CallCursorClose
| CallConnectionClose.

Record OracleConnector : Type := mkConnector {
  host : string;
  user : string;
  password : string;
  port : Z;
  service_name : string;
  connection : option Connection
}.

(** [OracleConnector.__init__] *)
Definition init (h u p : string) (pt : Z) (sn : string) : OracleConnector :=
  mkConnector h u p pt sn None.

Definition set_connection (c : OracleConnector) (k : option Connection) : OracleConnector :=
  mkConnector (host c) (user c) (password c) (port c) (service_name c) k.

(** The result triple of [execute_query]: success flag, data, message. *)
Definition QueryResult : Type := (bool * option DataFrame * option string)%type.

(** [OracleConnector.execute_query]; the connector itself is not modified.
    A left answer of [db_run] stands for an exception raised anywhere
    between [cursor.execute] and [cursor.close] inside the [try]; the calls
    logged for it are those made up to [cursor.execute], so on a failure the
    log is a lower bound of what the driver saw. *)
Definition execute_query (c : OracleConnector) (query : string)
    (log : list DriverCall) : QueryResult * list DriverCall :=
  match connection c with
  | None => ((false, None, Some "No active connection"), log)
  | Some h =>
      let log1 := log ++ [CallCursor; CallExecute query] in
      match db_run h query with
      | inl e => ((false, None, Some ("Query execution error: " +:+ str_exn e)), log1)
      | inr df =>
          if PyStr.startswith "SELECT" (PyStr.upper (PyStr.strip query)) then
            ((true, Some df, None), log1 ++ [CallFetchall; CallCursorClose])
          else
            match db_commit h with
            | Some e =>
                ((false, None, Some ("Query execution error: " +:+ str_exn e)),
                 log1 ++ [CallCommit])
            | None =>
                ((true, None, Some "Query executed successfully"),
                 log1 ++ [CallCommit; CallCursorClose])
            end
      end
  end.

Definition table_list_sql : string :=
  "
                SELECT table_name 
                FROM user_tables 
                ORDER BY table_name
            ".

(** [[row[0] for row in rows]]: an empty row raises [IndexError]. *)
Fixpoint first_column (rows : list (list string)) : option (list string) :=
  match rows with
  | [] => Some []
  | [] :: _ => None
  | (x :: _) :: rest =>
      match first_column rest with
      | Some xs => Some (x :: xs)
      | None => None
      end
  end.

(** [OracleConnector.get_table_list] *)
Definition get_table_list (c : OracleConnector) (log : list DriverCall)
    : list string * list DriverCall :=
  match connection c with
  | None => ([], log)
  | Some h =>
      let log1 := log ++ [CallCursor; CallExecute table_list_sql] in
      match db_run h table_list_sql with
      | inl _ => ([], log1)
      | inr df =>
          match first_column (df_rows df) with
          | None => ([], log1 ++ [CallFetchall])
          | Some tables => (tables, log1 ++ [CallFetchall; CallCursorClose])
          end
      end
  end.

(** [OracleConnector.close]: the first component is the exception that
    escapes, if the driver's [close()] raised. *)
Definition close (c : OracleConnector) (log : list DriverCall)
    : option exn * OracleConnector * list DriverCall :=
  match connection c with
  | None => (None, c, log)
  | Some h =>
      match db_close h with
      | Some e => (Some e, c, log ++ [CallConnectionClose])
      | None => (None, set_connection c None, log ++ [CallConnectionClose])
      end
  end.

End Oracle.

(** ** Configuration (config/agent_config.py) *)

Record AgentConfig : Type := mkConfig {
  id : string;
  name : string;
  description : string;
  icon : string;
  color : string;
  status : string
}.

(** ** The session store and BaseAgent (agent_registry.py, lines 99-263) *)

(** Free-form values kept inside a session dictionary. *)
Inductive PyVal : Type :=
| VNone
| VBool (b : bool)
| VInt (z : Z)
| VStr (s : string)
| VTime (t : Z)
| VList (l : list PyVal)
| VDict (d : list (string * PyVal)).

(** One conversation message.  [timestamp] holds the clock reading whose
    ISO-8601 rendering the program stores. *)
Record Message : Type := mkMessage {
  role : string;
  content : string;
  timestamp : Z;
  metadata : list (string * PyVal)
}.

(** What [st.session_state] holds under a key: a session dictionary, a
    conversation list, or anything else the application put there. *)
Inductive StateValue : Type :=
| SessionV (d : gmap string PyVal)
| ConversationV (msgs : list Message)
| OtherV (v : PyVal).

Abbreviation SessionState := (gmap string StateValue).

(** How control leaves a piece of script: it runs to its end, it calls
    [st.rerun()] (which unwinds the script through an exception that is not
    an [Exception], so that no [except Exception] handler stops it), or an
    exception escapes. *)
Inductive Flow : Type :=
| Return (st : SessionState)
| Rerun (st : SessionState)
| Raise (e : exn) (st : SessionState).

Definition flow_state (f : Flow) : SessionState :=
  match f with Return st | Rerun st | Raise _ st => st end.

Module BaseAgent.

Record Agent : Type := mkAgent {
  config : AgentConfig;
  session_key : string;
  conversation_key : string
}.

Definition make_session_key (agent_id : string) : string :=
  "agent_" +:+ agent_id +:+ "_session".

Definition make_conversation_key (agent_id : string) : string :=
  "agent_" +:+ agent_id +:+ "_conversation".

(** The attributes [BaseAgent.__init__] sets before it initialises the
    session. *)
Definition agent_of (cfg : AgentConfig) : Agent :=
  mkAgent cfg (make_session_key (id cfg)) (make_conversation_key (id cfg)).

(** The fresh session dictionary of [initialize_session]. *)
Definition new_session (now : Z) : gmap string PyVal :=
  <["initialized" := VBool true]>
    (<["last_activity" := VTime now]>
       (<["context" := VDict []]>
          (<["history" := VList []]> ∅))).

(** [BaseAgent.initialize_session] *)
Definition initialize_session (a : Agent) (now : Z) (st : SessionState) : SessionState :=
  let st1 :=
    match st !! session_key a with
    | None => <[session_key a := SessionV (new_session now)]> st
    | Some _ => st
    end in
  match st1 !! conversation_key a with
  | None => <[conversation_key a := ConversationV []]> st1
  | Some _ => st1
  end.

(** [BaseAgent.__init__]: the agent and the store after its session has
    been initialised. *)
Definition init (cfg : AgentConfig) (now : Z) (st : SessionState) : Agent * SessionState :=
  let a := agent_of cfg in
  (a, initialize_session a now st).

(** [BaseAgent.get_session_data]: the stored value, or a new empty dict. *)
Definition get_session_data (a : Agent) (st : SessionState) : StateValue :=
  default (SessionV ∅) (st !! session_key a).

(** [BaseAgent.update_session_data]: [dict.update] lets the new entries
    win; a stored value that is not a dictionary makes [update] fail. *)
Definition update_session_data (a : Agent) (data : gmap string PyVal) (now : Z)
    (st : SessionState) : exn + SessionState :=
  match get_session_data a st with
  | SessionV d =>
      inr (<[session_key a := SessionV (<["last_activity" := VTime now]> (data ∪ d))]> st)
  | _ => inl (Exception "object has no attribute 'update'")
  end.

(** [BaseAgent.get_conversation_history]: the stored value, or a new
    empty list. *)
Definition get_conversation_history (a : Agent) (st : SessionState) : StateValue :=
  default (ConversationV []) (st !! conversation_key a).

(** [BaseAgent.add_to_conversation]; [metadata or {}] is the given mapping
    or, for [None] and for an empty mapping, an empty one.  A stored value
    that is not a list makes [append] fail. *)
Definition add_to_conversation (a : Agent) (r c : string)
    (md : option (list (string * PyVal))) (now : Z) (st : SessionState)
    : exn + SessionState :=
  let message := mkMessage r c now (default [] md) in
  match get_conversation_history a st with
  | ConversationV conversation =>
      inr (<[conversation_key a := ConversationV (conversation ++ [message])]> st)
  | _ => inl (Exception "object has no attribute 'append'")
  end.

(** The conversation as a list of messages, when the store holds one (or
    nothing) under the agent's conversation key. *)
Definition messages (a : Agent) (st : SessionState) : option (list Message) :=
  match get_conversation_history a st with
  | ConversationV l => Some l
  | _ => None
  end.

Section ChatDriver.

(** The agent-specific [process_input].  Every implementation in the
    repository (BRD generator, database chat, fallback) reads the store
    at most and never writes to it: it returns a response or raises. *)
Variable process_input : string -> SessionState -> exn + string.

(** The part of [render_chat_input] that runs after the form widgets
    have been read.  [now_user] and [now_agent] are the clock readings
    of the two [add_to_conversation] calls. *)
Definition render_chat_input (a : Agent) (user_input : string)
    (submitted clear_chat : bool) (now_user now_agent : Z)
    (st : SessionState) : Flow :=
  let after_send : Flow :=
    if submitted && PyStr.truthy (PyStr.strip user_input) then
      match add_to_conversation a "user" user_input None now_user st with
      | inl e => Raise e st
      | inr st1 =>
          let tried : exn + SessionState :=
            match process_input user_input st1 with
            | inl e => inl e
            | inr response => add_to_conversation a "agent" response None now_agent st1
            end in
          match tried with
          | inr st2 => Rerun st2
          | inl e =>
              let error_response := "Sorry, I encountered an error: " +:+ str_exn e in
              match add_to_conversation a "agent" error_response None now_agent st1 with
              | inl e' => Raise e' st1
              | inr st2 => Return st2
              end
          end
      end
    else Return st in
  match after_send with
  | Return st' =>
      if clear_chat then Rerun (<[conversation_key a := ConversationV []]> st')
      else Return st'
  | other => other
  end.

End ChatDriver.

End BaseAgent.

(** ** DatabaseChatAgent (database_chat_agent.py, lines 159-1030)

    The class body defines several methods twice.  [Earlier] holds the first
    definitions (lines 168-542, driven by the [OracleConnector]); the
    definitions that follow the submodule are the later ones (lines 544-1030,
    the mock backend), which are the ones bound on the class once its body
    has been executed. *)

Module DatabaseChatAgent.

Record Agent : Type := mkAgent {
  base : BaseAgent.Agent;
  oracle_connector : option Oracle.OracleConnector;
  connection_status : string
}.

(** [DatabaseChatAgent.__init__] *)
Definition init (cfg : AgentConfig) (now : Z) (st : SessionState) : Agent * SessionState :=
  let (b, st') := BaseAgent.init cfg now st in
  (mkAgent b None "disconnected", st').

Definition set_status (a : Agent) (s : string) : Agent :=
  mkAgent (base a) (oracle_connector a) s.

Module Earlier.

(** The scan of lines 487-491: the first table of the catalog whose
    lower-cased name occurs in the lower-cased input. *)
Definition mentioned_table (tables : list string) (user_input : string) : option string :=
  let user_input_lower := PyStr.lower user_input in
  find (fun table => PyStr.str_in (PyStr.lower table) user_input_lower) tables.

(** Lines 482-511 of [natural_language_to_sql], once [tables] is known. *)
Definition translate (tables : list string) (user_input : string) : option string :=
  let user_input_lower := PyStr.lower user_input in
  if PyStr.any_in ["show"; "list"; "display"] user_input_lower
     && PyStr.str_in "table" user_input_lower then
    Some "SELECT table_name FROM user_tables ORDER BY table_name"
  else
    let for_table : option string :=
      match mentioned_table tables user_input with
      | Some t =>
          if PyStr.truthy t then
            if PyStr.any_in ["count"; "how many"; "total"] user_input_lower then
              Some ("SELECT COUNT(*) as total_rows FROM " +:+ t)
            else if PyStr.any_in ["show"; "display"; "list"; "all"] user_input_lower then
              if PyStr.any_in ["first"; "top"; "10"; "sample"] user_input_lower then
                Some ("SELECT * FROM " +:+ t +:+ " WHERE ROWNUM <= 10")
              else
                Some ("SELECT * FROM " +:+ t)
            else if PyStr.str_in "describe" user_input_lower
                    || PyStr.str_in "structure" user_input_lower then
              Some ("SELECT column_name, data_type, nullable FROM user_tab_columns WHERE table_name = '"
                    +:+ t +:+ "' ORDER BY column_id")
            else None
          else None
      | None => None
      end in
    match for_table with
    | Some sql => Some sql
    | None =>
        if PyStr.str_in "tables" user_input_lower
           && PyStr.any_in ["show"; "list"] user_input_lower then
          Some "SELECT table_name FROM user_tables ORDER BY table_name"
        else None
    end.

(** [natural_language_to_sql], lines 472-511. *)
Definition natural_language_to_sql (a : Agent) (user_input : string)
    (log : list Oracle.DriverCall) : option string * list Oracle.DriverCall :=
  match oracle_connector a with
  | None => (None, log)
  | Some c =>
      let (tables, log') := Oracle.get_table_list c log in
      (translate tables user_input, log')
  end.

(** The Disconnect button of [render_connection_interface], lines
    338-343: the exception of a failing [close()] escapes before the
    status is touched. *)
Definition disconnect (a : Agent) (log : list Oracle.DriverCall)
    : option exn * Agent * list Oracle.DriverCall :=
  match oracle_connector a with
  | Some c =>
      match Oracle.close c log with
      | (Some e, c', log') => (Some e, mkAgent (base a) (Some c') (connection_status a), log')
      | (None, _, log') => (None, mkAgent (base a) None "disconnected", log')
      end
  | None => (None, mkAgent (base a) None "disconnected", log)
  end.

End Earlier.

(** [get_table_list] (mock), line 877. *)
Definition get_table_list : list string :=
  ["CUSTOMERS"; "ORDERS"; "PRODUCTS"; "EMPLOYEES"; "DEPARTMENTS"; "SALES"; "INVENTORY"].

(** [extract_table_name], lines 953-963; [tables] is what
    [self.get_table_list()] returns. *)
Definition extract_table_name (tables : list string) (user_input : string) : option string :=
  let user_input_upper := PyStr.upper user_input in
  find (fun table => PyStr.str_in table user_input_upper) tables.

(** [natural_language_to_sql], lines 965-989, over the catalog [tables]
    that [self.get_table_list()] returns. *)
Definition natural_language_to_sql_over (tables : list string) (user_input : string)
    : option string :=
  let user_input_lower := PyStr.lower user_input in
  let named (k : string -> string) : option string :=
    match extract_table_name tables user_input with
    | Some table_name => if PyStr.truthy table_name then Some (k table_name) else None
    | None => None
    end in
  if PyStr.str_in "all" user_input_lower && PyStr.str_in "from" user_input_lower then
    named (fun t => "SELECT * FROM " +:+ t)
  else if PyStr.str_in "count" user_input_lower then
    named (fun t => "SELECT COUNT(*) FROM " +:+ t)
  else if PyStr.any_in ["top"; "first"; "limit"] user_input_lower then
    let limit := default "10" (PyStr.first_number user_input) in
    named (fun t => "SELECT * FROM " +:+ t +:+ " WHERE ROWNUM <= " +:+ limit)
  else None.

(** The method as bound on the class: the catalog is the mock one. *)
Definition natural_language_to_sql (user_input : string) : option string :=
  natural_language_to_sql_over get_table_list user_input.

(** [test_database_connection] (mock), lines 856-859. *)
Definition test_database_connection (config : gmap string PyVal) : bool := true.

(** The fields of the connection form, lines 618-641. *)
Record ConnectionForm : Type := mkForm {
  f_host : string;
  f_port : Z;
  f_service_name : string;
  f_username : string;
  f_password : string;
  f_schema : string;
  f_use_ssl : bool;
  f_timeout : Z;
  f_pool_size : Z;
  f_auto_commit : bool
}.

(** The dictionary literal of lines 648-659. *)
Definition form_config (f : ConnectionForm) : gmap string PyVal :=
  list_to_map
    [("host", VStr (f_host f)); ("port", VInt (f_port f));
     ("service_name", VStr (f_service_name f)); ("username", VStr (f_username f));
     ("password", VStr (f_password f)); ("schema", VStr (f_schema f));
     ("use_ssl", VBool (f_use_ssl f)); ("timeout", VInt (f_timeout f));
     ("pool_size", VInt (f_pool_size f)); ("auto_commit", VBool (f_auto_commit f))].

(** Messages shown by [st.success] and [st.error]. *)
Inductive Notice : Type :=
| Success (text : string)
| Error (text : string).

(** [render_connection_interface], lines 613-685: the agent afterwards,
    the notices shown, and whether the script was left through
    [st.rerun()].  [submitted], [disconnect] and [test_conn] say which
    button was pressed. *)
Definition render_connection_interface (a : Agent) (f : ConnectionForm)
    (submitted disconnect test_conn : bool) : Agent * list Notice * bool :=
  let '(a1, shown, rerun1) :=
    if submitted then
      if PyStr.truthy (f_username f) && PyStr.truthy (f_password f) then
        if test_database_connection (form_config f) then
          (set_status a "connected",
           [Success "Successfully connected to Oracle database!"], true)
        else
          (a, [Error "Failed to connect to database. Please check your credentials."], false)
      else (a, [Error "Please provide username and password."], false)
    else (a, [], false) in
  if rerun1 then (a1, shown, true)
  else
    let '(a2, shown2, rerun2) :=
      if String.eqb (connection_status a1) "connected" then
        if disconnect then
          (set_status a1 "disconnected",
           shown ++ [Success "Database connection is active"], true)
        else (a1, shown ++ [Success "Database connection is active"], false)
      else (a1, shown, false) in
    if rerun2 then (a2, shown2, true)
    else if test_conn then
      if String.eqb (connection_status a2) "connected" then
        (a2, shown2 ++ [Success "Connection is active and responding"], false)
      else (a2, shown2 ++ [Error "No active connection"], false)
    else (a2, shown2, false).

End DatabaseChatAgent.

(** ** Agent catalog, AgentRegistry and AgentManager *)

(** A Python [dict] whose insertion order is observable (through
    [list(d.keys())]): an association list without repeated keys. *)
Module Dict.

Section Ops.
Context {V : Type}.

(** [d.get(k)] *)
Fixpoint get (k : string) (d : list (string * V)) : option V :=
  match d with
  | [] => None
  | (k', v) :: rest => if String.eqb k k' then Some v else get k rest
  end.

(** [d[k] = v]: an existing key keeps its place, a new one goes last. *)
Fixpoint set (k : string) (v : V) (d : list (string * V)) : list (string * V) :=
  match d with
  | [] => [(k, v)]
  | (k', v') :: rest =>
      if String.eqb k k' then (k, v) :: rest else (k', v') :: set k v rest
  end.

(** [list(d.keys())] *)
Definition keys (d : list (string * V)) : list string := map fst d.

(** [k in d] *)
Definition mem (k : string) (d : list (string * V)) : bool :=
  existsb (String.eqb k) (keys d).

(** [del d[k]] for a key that is present; the other entries keep their
    order. *)
Fixpoint delete (k : string) (d : list (string * V)) : list (string * V) :=
  match d with
  | [] => []
  | (k', v') :: rest =>
      if String.eqb k k' then rest else (k', v') :: delete k rest
  end.
End Ops.

End Dict.

(** The two entries of [AGENT_CONFIGS] (config/agent_config.py, lines
    55-127); [status] is left at its default. *)
Definition brd_generator_config : AgentConfig :=
  mkConfig "brd_generator" "BRD Generator"
    "Intelligent Business Requirements Document generation from regulatory documents with AI-powered analysis and mathematical formula extraction"
    "📄" "#667eea" "active".

Definition database_chat_config : AgentConfig :=
  mkConfig "database_chat" "Database Assistant"
    "Natural language interface for Oracle database interactions with intelligent query generation and data analysis capabilities"
    "💾" "#10B981" "active".

Definition AGENT_CONFIGS : list (string * AgentConfig) :=
  [("brd_generator", brd_generator_config); ("database_chat", database_chat_config)].

(** [get_available_agents] (config/agent_config.py, lines 309-311), over the
    catalog it filters. *)
Definition get_available_agents (configs : list (string * AgentConfig))
    : list (string * AgentConfig) :=
  List.filter (fun entry => String.eqb (status (snd entry)) "active") configs.

Module AgentRegistry.

(** What the loader writes to the log. *)
Inductive LogRecord : Type :=
| LogInfo (text : string)
| LogWarning (text : string)
| LogError (text : string).

Section Loading.

(** The class of the constructed agents. *)
Context {Instance : Type}.

(** The two constructors: they build an agent from its configuration or
    raise. *)
Variable BRDGeneratorAgent : AgentConfig -> exn + Instance.
Variable DatabaseChatAgent : AgentConfig -> exn + Instance.

(** [if agent_id in configs: self.agents[agent_id] = ctor(configs[agent_id])] *)
Definition register_if_configured (agent_id : string)
    (ctor : AgentConfig -> exn + Instance)
    (configs : list (string * AgentConfig))
    (agents : list (string * Instance)) : exn + list (string * Instance) :=
  match Dict.get agent_id configs with
  | Some cfg =>
      match ctor cfg with
      | inl e => inl e
      | inr agent => inr (Dict.set agent_id agent agents)
      end
  | None => inr agents
  end.

(** The body of the [try] block shared by the two loaders: the agents
    registered when it stops, and the exception that stopped it. *)
Definition load_both (configs : list (string * AgentConfig))
    (agents : list (string * Instance)) : list (string * Instance) * option exn :=
  match register_if_configured "brd_generator" BRDGeneratorAgent configs agents with
  | inl e => (agents, Some e)
  | inr agents1 =>
      match register_if_configured "database_chat" DatabaseChatAgent configs agents1 with
      | inl e => (agents1, Some e)
      | inr agents2 => (agents2, None)
      end
  end.

(** [AgentRegistry._load_agents] (agent_registry.py, lines 272-293).
    [import_agents] is the outcome of the two import statements,
    [configs] the catalog behind [get_available_agents()], [agents] the
    dictionary [self.agents] on entry. *)
Definition _load_agents (import_agents : option exn)
    (configs : list (string * AgentConfig)) (agents : list (string * Instance))
    : list (string * Instance) * list LogRecord :=
  let handler (e : exn) : list LogRecord :=
    match e with
    | ImportError m => [LogWarning ("Could not load some agents: " +:+ m)]
    | Exception m => [LogError ("Error loading agents: " +:+ m)]
    end in
  match import_agents with
  | Some e => (agents, handler e)
  | None =>
      let available_configs := get_available_agents configs in
      match load_both available_configs agents with
      | (agents', Some e) => (agents', handler e)
      | (agents', None) => (agents', [LogInfo "Loaded agents"])
      end
  end.

(** [AgentRegistry.__init__] *)
Definition init (import_agents : option exn) (configs : list (string * AgentConfig))
    : list (string * Instance) :=
  fst (_load_agents import_agents configs []).

(** [AgentRegistry.list_agent_ids] *)
Definition list_agent_ids (agents : list (string * Instance)) : list string :=
  Dict.keys agents.

(** [AgentRegistry.get_agent] *)
Definition get_agent (agent_id : string) (agents : list (string * Instance))
    : option Instance :=
  Dict.get agent_id agents.

(** Tolerance of partial failure as the specification words it: each of
    the two agents whose constructor succeeds on its configuration ends up
    registered, whatever the other constructor does. *)
Definition tolerates_partial_failure (configs : list (string * AgentConfig)) : Prop :=
  forall (agent_id : string) (ctor : AgentConfig -> exn + Instance)
         (cfg : AgentConfig) (agent : Instance),
    In (agent_id, ctor)
       [("brd_generator", BRDGeneratorAgent); ("database_chat", DatabaseChatAgent)] ->
    Dict.get agent_id (get_available_agents configs) = Some cfg ->
    ctor cfg = inr agent ->
    In agent_id (list_agent_ids (init None configs)).

(** [AgentManager.load_agents] (main.py, lines 200-215): the same two
    steps over [AGENT_CONFIGS] itself; the handler shows the error. *)
Definition load_agents (configs : list (string * AgentConfig))
    (agents : list (string * Instance)) : list (string * Instance) * list LogRecord :=
  match load_both configs agents with
  | (agents', Some e) => (agents', [LogError ("Error loading agents: " +:+ str_exn e)])
  | (agents', None) => (agents', [LogInfo "Loaded agents"])
  end.

(** [AgentRegistry.register_agent] (agent_registry.py, lines 317-320) *)
Definition register_agent (agent_id : string) (agent : Instance)
    (agents : list (string * Instance)) : list (string * Instance) :=
  Dict.set agent_id agent agents.

(** [AgentRegistry.unregister_agent] (agent_registry.py, lines 322-326) *)
Definition unregister_agent (agent_id : string) (agents : list (string * Instance))
    : list (string * Instance) :=
  if Dict.mem agent_id agents then Dict.delete agent_id agents else agents.

End Loading.

End AgentRegistry.


(** ** The application shell (main.py, ui/agent_selector.py) *)

Module Main.

(** The test of the list comprehension of "New Chat" (main.py, lines
    242-243). *)
Definition is_agent_key (key : string) : bool :=
  PyStr.startswith "agent_" key || PyStr.startswith "conversation_" key.

(** The "New Chat" button of [render_sidebar] (main.py, lines 240-247): the
    keys to remove are collected first, then deleted one by one, then
    [selected_agent] is set to [None]. *)
Definition new_chat (st : SessionState) : SessionState :=
  let keys_to_remove := List.filter is_agent_key (map fst (map_to_list st)) in
  let st' := foldl (fun s key => delete key s) st keys_to_remove in
  <["selected_agent" := OtherV VNone]> st'.

End Main.

Module AgentSelector.

(** The "Reset" button of [render_agent_sidebar_info]
    (ui/agent_selector.py, lines 93-100). *)
Definition reset (a : BaseAgent.Agent) (st : SessionState) : SessionState :=
  let st1 :=
    match st !! BaseAgent.session_key a with
    | Some _ => delete (BaseAgent.session_key a) st
    | None => st
    end in
  match st1 !! BaseAgent.conversation_key a with
  | Some _ => delete (BaseAgent.conversation_key a) st1
  | None => st1
  end.

End AgentSelector.

(** ** Rendering the conversation (agent_registry.py, lines 191-221) *)

Module Conversation.

(** [l[-n:]] for a positive [n]: the last [n] elements, or all of [l] when
    it is shorter. *)
Definition slice_last {A : Type} (n : nat) (l : list A) : list A :=
  drop (length l - n) l.

(** What [render_conversation] puts on the page: the invitation to start,
    or one bubble per message with the speaker shown, the content and the
    timestamp. *)
Inductive Rendered : Type :=
| Invitation (text : string)
| Bubble (speaker : string) (text : string) (time : Z).

(** The body of [BaseAgent.render_conversation] for the list
    [conversation] read from the store. *)
Definition render_conversation (a : BaseAgent.Agent) (conversation : list Message)
    : list Rendered :=
  match conversation with
  | [] => [Invitation ("Start a conversation with " +:+ name (BaseAgent.config a))]
  | _ =>
      map (fun message =>
             if String.eqb (role message) "user"
             then Bubble "You" (content message) (timestamp message)
             else Bubble (name (BaseAgent.config a)) (content message) (timestamp message))
          (slice_last 20 conversation)
  end.

End Conversation.

(** ** The driver behind the connector (database_chat_agent.py, lines 32-68) *)

Module OracleDriver.

Section Driver.

(** Whether [import cx_Oracle] succeeded. *)
Variable ORACLE_AVAILABLE : bool.

(** [cx_Oracle.makedsn(host, port, service_name=...)] *)
Variable makedsn : string -> Z -> string -> exn + string.

(** [cx_Oracle.connect(user, password, dsn)]: a live handle, or the
    driver's error. *)
Variable cx_connect : string -> string -> string -> exn + Oracle.Connection.

(** [OracleConnector.get_dsn] *)
Definition get_dsn (c : Oracle.OracleConnector) : exn + string :=
  if PyStr.truthy (Oracle.service_name c) then
    makedsn (Oracle.host c) (Oracle.port c) (Oracle.service_name c)
  else inr (Oracle.host c +:+ ":" +:+ pretty (Oracle.port c)).

(** [OracleConnector.connect]: the returned flag and the connector
    afterwards.  A failure is shown on the page and leaves the attribute
    [connection] as it was. *)
Definition connect (c : Oracle.OracleConnector) : bool * Oracle.OracleConnector :=
  if negb ORACLE_AVAILABLE then (false, c)
  else
    match get_dsn c with
    | inl _ => (false, c)
    | inr dsn =>
        match cx_connect (Oracle.user c) (Oracle.password c) dsn with
        | inl _ => (false, c)
        | inr handle => (true, Oracle.set_connection c (Some handle))
        end
    end.

(** The Connect button of the earlier [render_connection_interface]
    (database_chat_agent.py, lines 266-269 and 302-321).  [connected_at] is
    the reading of [pd.Timestamp.now()], [now] the one taken by
    [update_session_data]. *)
Definition connect_action (a : DatabaseChatAgent.Agent)
    (h : string) (pt : Z) (sn username pw : string) (connect_button : bool)
    (connected_at now : Z) (st : SessionState) : DatabaseChatAgent.Agent * Flow :=
  if negb ORACLE_AVAILABLE then (a, Return st)
  else if connect_button && PyStr.truthy username && PyStr.truthy pw then
    let (ok, c) := connect (Oracle.init h username pw pt sn) in
    let a1 :=
      DatabaseChatAgent.mkAgent (DatabaseChatAgent.base a) (Some c)
        (DatabaseChatAgent.connection_status a) in
    if ok then
      let a2 := DatabaseChatAgent.set_status a1 "connected" in
      let entries : gmap string PyVal :=
        <["host" := VStr h]>
          (<["username" := VStr username]>
             (<["service_name" := VStr sn]>
                (<["connected_at" := VTime connected_at]> ∅))) in
      let b := DatabaseChatAgent.base a in
      match st !! BaseAgent.session_key b with
      | Some (SessionV d) =>
          (* the stored dictionary itself is updated, then passed on *)
          let st_updated := <[BaseAgent.session_key b := SessionV (entries ∪ d)]> st in
          match BaseAgent.update_session_data b (entries ∪ d) now st_updated with
          | inr st' => (a2, Rerun st')
          | inl e => (a2, Raise e st_updated)
          end
      | None =>
          (* a new dictionary, which only [update_session_data] stores *)
          match BaseAgent.update_session_data b entries now st with
          | inr st' => (a2, Rerun st')
          | inl e => (a2, Raise e st)
          end
      | Some _ => (a2, Raise (Exception "object has no attribute 'update'") st)
      end
    else (a1, Return st)
  else (a, Return st).

End Driver.

End OracleDriver.


(** ** The earlier definitions of DatabaseChatAgent, continued
       (database_chat_agent.py, lines 199-235 and 432-470) *)

Module OracleBackedAgent.

(** One entry of [query_history]. *)
Record QueryInfo : Type := mkQueryInfo {
  question : string;
  sql : string;
  asked_at : string;
  success : bool;
  error : option string;
  row_count : nat
}.

Definition nl : string := String (ascii_of_nat 10) EmptyString.

(** [results.empty]: no rows or no columns. *)
Definition df_empty (df : Oracle.DataFrame) : bool :=
  match Oracle.df_rows df, Oracle.df_columns df with
  | [], _ => true
  | _, [] => true
  | _, _ => false
  end.

Definition not_connected_message : string :=
  "I need to connect to a database first. Please configure the connection in the Connection Setup tab.".

Definition cannot_convert_message : string :=
  "I couldn't convert that to a SQL query. Could you be more specific? For example: 'Show me all customers' or 'Count rows in the orders table'.".

(** [process_input], lines 432-470.  [stamp] is the formatted reading of
    [pd.Timestamp.now()].  The result is the response (or the exception
    that escapes), the entry appended to [query_history] if there is one,
    and the driver calls made. *)
Definition process_input (a : DatabaseChatAgent.Agent) (user_input stamp : string)
    (log : list Oracle.DriverCall)
    : (exn + string) * option QueryInfo * list Oracle.DriverCall :=
  if negb (String.eqb (DatabaseChatAgent.connection_status a) "connected") then
    (inr not_connected_message, None, log)
  else
    let (translated, log1) := DatabaseChatAgent.Earlier.natural_language_to_sql a user_input log in
    match translated with
    | None => (inr cannot_convert_message, None, log1)
    | Some sql_query =>
        if negb (PyStr.truthy sql_query) then (inr cannot_convert_message, None, log1)
        else
          match DatabaseChatAgent.oracle_connector a with
          | None => (inl (Exception "'NoneType' object has no attribute 'execute_query'"), None, log1)
          | Some c =>
              let '((ok, results, err), log2) := Oracle.execute_query c sql_query log1 in
              let query_info :=
                mkQueryInfo user_input sql_query stamp ok err
                  (match results with Some df => length (Oracle.df_rows df) | None => 0 end) in
              let shown := "```sql" +:+ nl +:+ sql_query +:+ nl +:+ "```" +:+ nl +:+ nl in
              let response :=
                if ok then
                  match results with
                  | Some df =>
                      if negb (df_empty df) then
                        "**Query executed successfully:**" +:+ nl +:+ shown
                        +:+ "**Results (" +:+ pretty (length (Oracle.df_rows df)) +:+ " rows):**"
                      else
                        "**Query executed successfully:**" +:+ nl +:+ shown
                        +:+ "Query completed (no data returned)."
                  | None =>
                      "**Query executed successfully:**" +:+ nl +:+ shown
                      +:+ "Query completed (no data returned)."
                  end
                else
                  "**Query failed:**" +:+ nl +:+ shown +:+ "**Error:** "
                  +:+ match err with Some m => m | None => "None" end in
              (inr response, Some query_info, log2)
          end
    end.

Section ChatInput.

(** The agent's [process_input], as in [BaseAgent.render_chat_input]. *)
Variable process_input_of : string -> SessionState -> exn + string.

(** The chat input of the earlier [render_chat_interface], lines 219-234:
    no exception handler surrounds the call. *)
Definition chat_turn (a : DatabaseChatAgent.Agent) (prompt : string)
    (now_user now_agent : Z) (st : SessionState) : Flow :=
  if PyStr.truthy prompt then
    match BaseAgent.add_to_conversation (DatabaseChatAgent.base a) "user" prompt None
            now_user st with
    | inl e => Raise e st
    | inr st1 =>
        let response :=
          if String.eqb (DatabaseChatAgent.connection_status a) "connected"
          then process_input_of prompt st1
          else inr "I need to connect to a database first. Please configure the connection in the Connection Setup tab." in
        match response with
        | inl e => Raise e st1
        | inr text =>
            match BaseAgent.add_to_conversation (DatabaseChatAgent.base a) "assistant" text
                    None now_agent st1 with
            | inl e => Raise e st1
            | inr st2 => Return st2
            end
        end
    end
  else Return st.

End ChatInput.

End OracleBackedAgent.

(** ** The bound [process_input] of DatabaseChatAgent
       (database_chat_agent.py, lines 765-829) *)

Module MockAgent.

(** [handle_search_requests], [handle_join_requests] and
    [handle_aggregation_requests] ignore their input. *)
Definition handle_search_requests (user_input : string) : string :=
  "I can help with search queries. Please provide more details about what you're looking for and in which table.".

Definition handle_join_requests (user_input : string) : string :=
  "I can help create JOIN queries. Please specify which tables you'd like to combine and the relationship between them.".

Definition handle_aggregation_requests (user_input : string) : string :=
  "I can help with aggregation queries (SUM, COUNT, AVG, MAX, MIN). Please specify the column and table you'd like to analyze.".

Section Dispatch.

(** The three handlers whose answers are rendered by pandas. *)
Variable handle_display_requests : string -> string.
Variable handle_count_requests : string -> string.
Variable handle_general_query : string -> string.

(** [process_input], lines 765-784. *)
Definition process_input (a : DatabaseChatAgent.Agent) (user_input : string) : string :=
  if negb (String.eqb (DatabaseChatAgent.connection_status a) "connected") then
    "I need to connect to a database first. Please configure the connection in the Connection tab."
  else
    let user_input_lower := PyStr.lower user_input in
    if PyStr.any_in ["show"; "list"; "display"] user_input_lower then
      handle_display_requests user_input
    else if PyStr.any_in ["count"; "how many"; "total"] user_input_lower then
      handle_count_requests user_input
    else if PyStr.any_in ["find"; "search"; "where"; "filter"] user_input_lower then
      handle_search_requests user_input
    else if PyStr.any_in ["join"; "combine"; "merge"] user_input_lower then
      handle_join_requests user_input
    else if PyStr.any_in ["average"; "sum"; "max"; "min"; "avg"] user_input_lower then
      handle_aggregation_requests user_input
    else handle_general_query user_input.

End Dispatch.

End MockAgent.


(** ** Sample data used by the examples *)

Module Sample.

(** A live handle on a schema with the two tables CUSTOMERS and ORDERS. *)
Definition two_table_connection : Oracle.Connection :=
  Oracle.mkConnection
    (fun _ => inr (Oracle.mkDataFrame ["TABLE_NAME"] [["CUSTOMERS"]; ["ORDERS"]]))
    None None.

Definition connected_connector : Oracle.OracleConnector :=
  Oracle.mkConnector "localhost" "scott" "tiger" 1521 "ORCL" (Some two_table_connection).

Definition fresh_connector : Oracle.OracleConnector :=
  Oracle.init "localhost" "scott" "tiger" 1521 "ORCL".

Definition two_tables : list string := ["CUSTOMERS"; "ORDERS"].

(** The database agent as its constructor leaves it, over an empty store. *)
Definition db_agent : DatabaseChatAgent.Agent :=
  fst (DatabaseChatAgent.init database_chat_config 0 ∅).

Definition connected_db_agent : DatabaseChatAgent.Agent :=
  DatabaseChatAgent.mkAgent (DatabaseChatAgent.base db_agent)
    (Some connected_connector) "connected".

(** Constructors for the registry: the first one raises, the second one
    is the constructor of the database agent over an empty store. *)
Definition failing_brd (cfg : AgentConfig) : exn + DatabaseChatAgent.Agent :=
  inl (Exception "document pipeline unavailable").

Definition working_db (cfg : AgentConfig) : exn + DatabaseChatAgent.Agent :=
  inr (fst (DatabaseChatAgent.init cfg 0 ∅)).

(** A base agent over a store that holds its session and one earlier
    message. *)
Definition chat_agent : BaseAgent.Agent := BaseAgent.agent_of database_chat_config.

Definition earlier_message : Message := mkMessage "system" "welcome" 5 [].

Definition store_with_history : SessionState :=
  <[BaseAgent.conversation_key chat_agent := ConversationV [earlier_message]]>
    (BaseAgent.initialize_session chat_agent 0 ∅).

(** Two [process_input] methods: one that raises, and the one of the
    fallback agent. *)
Definition failing_process_input (user_input : string) (st : SessionState) : exn + string :=
  inl (Exception "connection lost").

Definition fallback_process_input (user_input : string) (st : SessionState) : exn + string :=
  inr "Sorry, Database Assistant is not available. Please check system configuration.".

(** A catalog in which the BRD generator is switched off. *)
Definition inactive_brd_config : AgentConfig :=
  mkConfig "brd_generator" "BRD Generator" "" "" "#667eea" "inactive".

Definition catalog_with_inactive : list (string * AgentConfig) :=
  [("brd_generator", inactive_brd_config); ("database_chat", database_chat_config)].

(** Drivers: one that refuses every login, one that accepts every login. *)
Definition sample_makedsn (h : string) (pt : Z) (sn : string) : exn + string :=
  inr (h +:+ ":" +:+ pretty pt +:+ "/" +:+ sn).

Definition refusing_driver (u pw dsn : string) : exn + Oracle.Connection :=
  inl (Exception "ORA-01017: invalid username/password; logon denied").

Definition accepting_driver (u pw dsn : string) : exn + Oracle.Connection :=
  inr two_table_connection.

End Sample.


(** * Properties *)

(** ** Strings *)

Example lower_demo : PyStr.lower "Show ME all Customers_1" = "show me all customers_1".
Proof. reflexivity. Qed.

Example str_in_demo :
  PyStr.str_in "orders" "how many orders" = true /\
  PyStr.str_in "" "abc" = true /\
  PyStr.str_in "from" "show me all customers" = false.
Proof. repeat split. Qed.

Example strip_demo : PyStr.strip "  a b  " = "a b" /\ PyStr.strip "   " = "".
Proof. split; reflexivity. Qed.

Example first_number_demo :
  PyStr.first_number "top 25 of 300" = Some "25" /\ PyStr.first_number "top" = None.
Proof. split; reflexivity. Qed.

Section StringFacts.

Lemma startswith_map_str (f : ascii -> ascii) (p s : string) :
  PyStr.startswith p s = true ->
  PyStr.startswith (PyStr.map_str f p) (PyStr.map_str f s) = true.
Proof.
  revert s. induction p as [|a p IH]; intros [|b s]; simpl; try done.
  destruct (Ascii.eqb a b) eqn:E; [|done].
  apply Ascii.eqb_eq in E. subst b. rewrite Ascii.eqb_refl. apply IH.
Qed.

Lemma str_in_map_str (f : ascii -> ascii) (p s : string) :
  PyStr.str_in p s = true ->
  PyStr.str_in (PyStr.map_str f p) (PyStr.map_str f s) = true.
Proof.
  induction s as [|b s IH]; simpl; intros H.
  - rewrite orb_false_r in H. rewrite orb_false_r.
    apply (startswith_map_str f p EmptyString H).
  - apply orb_true_iff in H. apply orb_true_iff. destruct H as [H|H].
    + left. apply (startswith_map_str f p (String b s) H).
    + right. by apply IH.
Qed.

Lemma lower_upper_char (c : ascii) :
  PyStr.lower_char (PyStr.upper_char c) = PyStr.lower_char c.
Proof. destruct c as [[] [] [] [] [] [] [] []]; reflexivity. Qed.

Lemma upper_lower_char (c : ascii) :
  PyStr.upper_char (PyStr.lower_char c) = PyStr.upper_char c.
Proof. destruct c as [[] [] [] [] [] [] [] []]; reflexivity. Qed.

Lemma lower_upper (s : string) : PyStr.lower (PyStr.upper s) = PyStr.lower s.
Proof.
  induction s as [|c s IH]; [done|].
  unfold PyStr.lower, PyStr.upper in *. simpl. by rewrite lower_upper_char, IH.
Qed.

Lemma upper_lower (s : string) : PyStr.upper (PyStr.lower s) = PyStr.upper s.
Proof.
  induction s as [|c s IH]; [done|].
  unfold PyStr.lower, PyStr.upper in *. simpl. by rewrite upper_lower_char, IH.
Qed.

(** For a table name written in upper case, the test of
    [extract_table_name] and the test of the earlier scan agree. *)
Lemma upper_name_in_upper_input (t input : string) :
  PyStr.upper t = t ->
  PyStr.str_in t (PyStr.upper input) = PyStr.str_in (PyStr.lower t) (PyStr.lower input).
Proof.
  intros Ht.
  destruct (PyStr.str_in (PyStr.lower t) (PyStr.lower input)) eqn:E.
  - apply (str_in_map_str PyStr.upper_char) in E.
    fold (PyStr.upper (PyStr.lower t)) (PyStr.upper (PyStr.lower input)) in E.
    by rewrite !upper_lower, Ht in E.
  - destruct (PyStr.str_in t (PyStr.upper input)) eqn:E'; [|done].
    apply (str_in_map_str PyStr.lower_char) in E'.
    fold (PyStr.lower t) (PyStr.lower (PyStr.upper input)) in E'.
    rewrite lower_upper in E'. congruence.
Qed.

Lemma name_in_upper_input_lower (t input : string) :
  PyStr.str_in t (PyStr.upper input) = true ->
  PyStr.str_in (PyStr.lower t) (PyStr.lower input) = true.
Proof.
  intros E. apply (str_in_map_str PyStr.lower_char) in E.
  fold (PyStr.lower t) (PyStr.lower (PyStr.upper input)) in E.
  by rewrite lower_upper in E.
Qed.

End StringFacts.

(** The first element that passes a test is what a [for ... break] scan
    stops at. *)
Lemma find_first_match {A : Type} (f : A -> bool) (pre post : list A) (x : A) :
  Forall (fun y => f y = false) pre ->
  f x = true ->
  find f (pre ++ x :: post) = Some x.
Proof.
  intros Hpre Hx. induction Hpre as [|y pre Hy _ IH]; simpl.
  - by rewrite Hx.
  - by rewrite Hy.
Qed.

(** ** The translator *)

Section Translator.

Import DatabaseChatAgent.

Import Sample.

(** The earlier definition reads its catalog from the connector. *)
Lemma earlier_reads_connector_catalog (user_input : string) (log : list Oracle.DriverCall) :
  fst (Earlier.natural_language_to_sql Sample.connected_db_agent user_input log)
  = Earlier.translate ["CUSTOMERS"; "ORDERS"] user_input.
Proof. reflexivity. Qed.

(** C1, as stated, does not hold of the method bound on the class: over the
    catalog CUSTOMERS, ORDERS it answers neither "show me all customers" nor
    "how many orders" with the SQL text the claim gives. *)
Lemma bound_translator_misses_spec_examples :
  ~ (natural_language_to_sql_over ["CUSTOMERS"; "ORDERS"] "show me all customers"
       = Some "SELECT * FROM CUSTOMERS"
     /\ natural_language_to_sql_over ["CUSTOMERS"; "ORDERS"] "how many orders"
       = Some "SELECT COUNT(*) FROM ORDERS"
     /\ natural_language_to_sql_over ["CUSTOMERS"; "ORDERS"] "tell me a joke" = None).
Proof. intros [H _]. vm_compute in H. discriminate H. Qed.

(** C1 (amended): over the catalog CUSTOMERS, ORDERS (and over the mock
    catalog the class carries) the bound translator maps "show me all
    customers", "how many orders" and "tell me a joke" to the no-query
    sentinel; it produces exactly "SELECT * FROM CUSTOMERS" for "show me all
    from customers" and exactly "SELECT COUNT(*) FROM ORDERS" for "count
    orders".  The earlier definition maps "show me all customers" to
    "SELECT * FROM CUSTOMERS", "how many orders" to
    "SELECT COUNT(*) as total_rows FROM ORDERS" and "tell me a joke" to the
    sentinel. *)
Theorem translator_on_spec_examples :
  (natural_language_to_sql_over two_tables "show me all customers" = None
   /\ natural_language_to_sql_over two_tables "how many orders" = None
   /\ natural_language_to_sql_over two_tables "tell me a joke" = None
   /\ natural_language_to_sql_over two_tables "show me all from customers"
      = Some "SELECT * FROM CUSTOMERS"
   /\ natural_language_to_sql_over two_tables "count orders"
      = Some "SELECT COUNT(*) FROM ORDERS")
  /\ (natural_language_to_sql "show me all customers" = None
      /\ natural_language_to_sql "how many orders" = None
      /\ natural_language_to_sql "tell me a joke" = None
      /\ natural_language_to_sql "show me all from customers" = Some "SELECT * FROM CUSTOMERS"
      /\ natural_language_to_sql "count orders" = Some "SELECT COUNT(*) FROM ORDERS")
  /\ (Earlier.translate two_tables "show me all customers" = Some "SELECT * FROM CUSTOMERS"
      /\ Earlier.translate two_tables "how many orders"
         = Some "SELECT COUNT(*) as total_rows FROM ORDERS"
      /\ Earlier.translate two_tables "tell me a joke" = None
      /\ fst (Earlier.natural_language_to_sql Sample.connected_db_agent "how many orders" [])
         = Some "SELECT COUNT(*) as total_rows FROM ORDERS"
      /\ fst (Earlier.natural_language_to_sql Sample.db_agent "how many orders" []) = None).
Proof. repeat split; reflexivity. Qed.

(** C9: the two definitions of [natural_language_to_sql] are not the same
    function.  On "show me all customers" ('show' and 'all' without 'from')
    and on "how many orders" ('how many' without 'count') the earlier one
    produces SQL and the later one produces nothing; on "count orders" both
    produce SQL, with different text. *)
Theorem translators_differ :
  (exists (tables : list string) (user_input : string),
      Earlier.translate tables user_input <> natural_language_to_sql_over tables user_input)
  /\ Earlier.translate two_tables "show me all customers"
     <> natural_language_to_sql_over two_tables "show me all customers"
  /\ Earlier.translate two_tables "how many orders"
     <> natural_language_to_sql_over two_tables "how many orders"
  /\ Earlier.translate two_tables "count orders"
     <> natural_language_to_sql_over two_tables "count orders"
  /\ (exists (a : Agent) (user_input : string) (log : list Oracle.DriverCall),
         fst (Earlier.natural_language_to_sql a user_input log)
         <> natural_language_to_sql user_input).
Proof.
  split; [|split; [|split; [|split]]].
  - exists ["CUSTOMERS"; "ORDERS"], "show me all customers". by vm_compute.
  - by vm_compute.
  - by vm_compute.
  - by vm_compute.
  - exists Sample.connected_db_agent, "show me all customers", []. by vm_compute.
Qed.

(** Every name of the mock catalog is written in upper case. *)
Lemma mock_catalog_is_upper_case : Forall (fun t => PyStr.upper t = t) get_table_list.
Proof. repeat constructor. Qed.

(** On a catalog of upper-case names the two scans pick the same table. *)
Lemma scans_agree_on_upper_case_catalog (tables : list string) (user_input : string) :
  Forall (fun t => PyStr.upper t = t) tables ->
  extract_table_name tables user_input = Earlier.mentioned_table tables user_input.
Proof.
  unfold extract_table_name, Earlier.mentioned_table.
  induction 1 as [|t tables Ht _ IH]; [done|].
  simpl. rewrite (upper_name_in_upper_input t user_input Ht).
  destruct (PyStr.str_in (PyStr.lower t) (PyStr.lower user_input)); [done|exact IH].
Qed.

(** The chosen table is the one the generated SQL names. *)
Example tie_break_in_generated_sql :
  Earlier.translate ["ORDERS"; "ORDER_ITEMS"] "count order_items and orders"
  = Some "SELECT COUNT(*) as total_rows FROM ORDERS"
  /\ natural_language_to_sql_over ["ORDERS"; "ORDER_ITEMS"] "count order_items and orders"
     = Some "SELECT COUNT(*) FROM ORDERS"
  /\ natural_language_to_sql "count the orders of our customers"
     = Some "SELECT COUNT(*) FROM CUSTOMERS".
Proof. repeat split; reflexivity. Qed.

End Translator.

(** ** The registry *)

(** C2, as stated, does not hold: when the constructor of the BRD agent
    raises, the database agent, whose constructor would succeed, is never
    built and [list_agent_ids] is empty. *)
Lemma load_not_tolerant_of_first_failure :
  ~ AgentRegistry.tolerates_partial_failure Sample.failing_brd Sample.working_db AGENT_CONFIGS.
Proof.
  intros H.
  specialize (H "database_chat" Sample.working_db database_chat_config
                (fst (DatabaseChatAgent.init database_chat_config 0 ∅))).
  assert (Hin : In "database_chat"
                  (AgentRegistry.list_agent_ids
                     (AgentRegistry.init Sample.failing_brd Sample.working_db None AGENT_CONFIGS))).
  { apply H; [right; left; reflexivity | reflexivity | reflexivity]. }
  vm_compute in Hin. exact Hin.
Qed.

(** C2 (amended): loading never lets a construction failure escape, and it
    keeps what was registered before the failure.  The agents are built in
    the fixed order brd_generator, database_chat inside one [try] block: if
    the first constructor succeeds, brd_generator is registered whatever the
    second one does; if the first constructor raises, nothing is registered
    and the second constructor is not run.  [AgentRegistry._load_agents] and
    [AgentManager.load_agents] agree on this. *)
Theorem load_keeps_agents_built_before_failure {Instance : Type}
    (BRD DB : AgentConfig -> exn + Instance) :
  let agents := AgentRegistry.init BRD DB None AGENT_CONFIGS in
  fst (AgentRegistry.load_agents BRD DB AGENT_CONFIGS []) = agents
  /\ match BRD brd_generator_config with
     | inl _ => AgentRegistry.list_agent_ids agents = []
     | inr brd =>
         AgentRegistry.get_agent "brd_generator" agents = Some brd
         /\ match DB database_chat_config with
            | inl _ => AgentRegistry.list_agent_ids agents = ["brd_generator"]
            | inr db =>
                AgentRegistry.list_agent_ids agents = ["brd_generator"; "database_chat"]
                /\ AgentRegistry.get_agent "database_chat" agents = Some db
            end
     end.
Proof.
  unfold AgentRegistry.init, AgentRegistry._load_agents, AgentRegistry.load_agents,
    AgentRegistry.load_both, AgentRegistry.register_if_configured.
  cbn.
  destruct (BRD brd_generator_config) as [e|brd]; cbn; [done|].
  destruct (DB database_chat_config) as [e|db]; cbn; done.
Qed.

(** ** The connector *)

(** C5: without a connection, [close] changes nothing and raises nothing,
    [execute_query] reports failure with a message and makes no driver
    call, and the Disconnect action leaves the agent disconnected. *)
Theorem disconnected_connector_is_inert (c : Oracle.OracleConnector) (query : string)
    (log : list Oracle.DriverCall) :
  Oracle.connection c = None ->
  Oracle.close c log = (None, c, log)
  /\ Oracle.execute_query c query log = ((false, None, Some "No active connection"), log)
  /\ forall (b : BaseAgent.Agent),
       DatabaseChatAgent.Earlier.disconnect
         (DatabaseChatAgent.mkAgent b (Some c) "disconnected") log
       = (None, DatabaseChatAgent.mkAgent b None "disconnected", log).
Proof.
  intros Hc. unfold Oracle.close, Oracle.execute_query, DatabaseChatAgent.Earlier.disconnect.
  cbn. unfold Oracle.close. rewrite Hc. done.
Qed.

Lemma disconnected_connector_is_inert_witness :
  Oracle.connection Sample.fresh_connector = None
  /\ Oracle.close Sample.fresh_connector [] = (None, Sample.fresh_connector, [])
  /\ Oracle.execute_query Sample.fresh_connector "SELECT 1 FROM DUAL" []
     = ((false, None, Some "No active connection"), []).
Proof.
  split; [reflexivity|].
  destruct (disconnected_connector_is_inert Sample.fresh_connector "SELECT 1 FROM DUAL" [])
    as (H1 & H2 & _); [reflexivity|].
  split; [exact H1 | exact H2].
Defined.

(** Closing twice is the same as closing once: the second call finds no
    handle and does not reach the driver. *)
Lemma close_twice (c c' : Oracle.OracleConnector) (log log' : list Oracle.DriverCall) :
  Oracle.close c log = (None, c', log') ->
  Oracle.close c' log' = (None, c', log').
Proof.
  unfold Oracle.close. destruct (Oracle.connection c) as [h|] eqn:Hc.
  - destruct (Oracle.db_close h); [done|]. intros [= <- <-]. done.
  - intros [= <- <-]. by rewrite Hc.
Qed.

(** ** The mock connection path *)

(** C10: the mock [test_database_connection] accepts every configuration,
    so submitting the form with a non-empty user name and password always
    ends connected, whatever the credentials and options are; no failure
    notice is shown. *)
Theorem mock_connection_always_succeeds (a : DatabaseChatAgent.Agent)
    (f : DatabaseChatAgent.ConnectionForm) (disconnect test_conn : bool) :
  PyStr.truthy (DatabaseChatAgent.f_username f) = true ->
  PyStr.truthy (DatabaseChatAgent.f_password f) = true ->
  (forall config : gmap string PyVal, DatabaseChatAgent.test_database_connection config = true)
  /\ DatabaseChatAgent.render_connection_interface a f true disconnect test_conn
     = (DatabaseChatAgent.set_status a "connected",
        [DatabaseChatAgent.Success "Successfully connected to Oracle database!"], true)
  /\ DatabaseChatAgent.connection_status
       (fst (fst (DatabaseChatAgent.render_connection_interface a f true disconnect test_conn)))
     = "connected".
Proof.
  intros Hu Hp. split; [done|].
  unfold DatabaseChatAgent.render_connection_interface. rewrite Hu, Hp. cbn. done.
Qed.

Lemma mock_connection_always_succeeds_witness :
  DatabaseChatAgent.connection_status
    (fst (fst (DatabaseChatAgent.render_connection_interface Sample.db_agent
                 (DatabaseChatAgent.mkForm "no.such.host" 1 "NOPE" "intruder" "wrong" ""
                    true 5 1 false)
                 true false false)))
  = "connected".
Proof.
  apply (mock_connection_always_succeeds Sample.db_agent
           (DatabaseChatAgent.mkForm "no.such.host" 1 "NOPE" "intruder" "wrong" ""
              true 5 1 false) false false); reflexivity.
Defined.

(** ** The session store *)

(** The two keys of one agent are different entries of the store. *)
Lemma session_key_not_conversation_key (agent_id : string) :
  BaseAgent.make_session_key agent_id <> BaseAgent.make_conversation_key agent_id.
Proof.
  unfold BaseAgent.make_session_key, BaseAgent.make_conversation_key. intros H.
  apply (inj (String.app "agent_")) in H.
  apply (inj (String.app agent_id)) in H.
  discriminate H.
Qed.

Lemma agent_of_keys_differ (cfg : AgentConfig) :
  BaseAgent.session_key (BaseAgent.agent_of cfg)
  <> BaseAgent.conversation_key (BaseAgent.agent_of cfg).
Proof. apply session_key_not_conversation_key. Qed.

(** After [initialize_session] both keys are present. *)
Lemma initialize_session_present (a : BaseAgent.Agent) (now : Z) (st : SessionState) :
  is_Some (BaseAgent.initialize_session a now st !! BaseAgent.session_key a)
  /\ is_Some (BaseAgent.initialize_session a now st !! BaseAgent.conversation_key a).
Proof.
  unfold BaseAgent.initialize_session.
  destruct (st !! BaseAgent.session_key a) as [v|] eqn:Hs.
  - destruct (st !! BaseAgent.conversation_key a) as [w|] eqn:Hc.
    + rewrite Hs, Hc. eauto.
    + rewrite lookup_insert_eq. split; [|eauto].
      destruct (decide (BaseAgent.conversation_key a = BaseAgent.session_key a)) as [E|E].
      * rewrite E. rewrite lookup_insert_eq. eauto.
      * rewrite lookup_insert_ne by done. rewrite Hs. eauto.
  - destruct (<[BaseAgent.session_key a:=SessionV (BaseAgent.new_session now)]> st
                !! BaseAgent.conversation_key a) as [w|] eqn:Hc.
    + rewrite Hc, lookup_insert_eq. eauto.
    + rewrite lookup_insert_eq. split; [|eauto].
      destruct (decide (BaseAgent.conversation_key a = BaseAgent.session_key a)) as [E|E].
      * rewrite E. rewrite lookup_insert_eq. eauto.
      * rewrite lookup_insert_ne by done. rewrite lookup_insert_eq. eauto.
Qed.

(** When both keys are present, [initialize_session] does nothing. *)
Lemma initialize_session_noop (a : BaseAgent.Agent) (now : Z) (st : SessionState) :
  is_Some (st !! BaseAgent.session_key a) ->
  is_Some (st !! BaseAgent.conversation_key a) ->
  BaseAgent.initialize_session a now st = st.
Proof.
  intros [v Hv] [w Hw]. unfold BaseAgent.initialize_session. by rewrite Hv, Hw.
Qed.

(** What [initialize_session] leaves under the two keys of an agent. *)
Lemma initialize_session_lookup (a : BaseAgent.Agent) (now : Z) (st : SessionState) :
  BaseAgent.session_key a <> BaseAgent.conversation_key a ->
  BaseAgent.initialize_session a now st !! BaseAgent.session_key a
    = Some (default (SessionV (BaseAgent.new_session now)) (st !! BaseAgent.session_key a))
  /\ BaseAgent.initialize_session a now st !! BaseAgent.conversation_key a
    = Some (default (ConversationV []) (st !! BaseAgent.conversation_key a)).
Proof.
  intros Hne. unfold BaseAgent.initialize_session.
  destruct (st !! BaseAgent.session_key a) as [v|] eqn:Hs.
  - destruct (st !! BaseAgent.conversation_key a) as [w|] eqn:Hc.
    + by rewrite Hs, Hc.
    + rewrite lookup_insert_ne by done. rewrite lookup_insert_eq. by rewrite Hs.
  - rewrite (lookup_insert_ne st (BaseAgent.session_key a) (BaseAgent.conversation_key a))
      by done.
    destruct (st !! BaseAgent.conversation_key a) as [w|] eqn:Hc.
    + rewrite lookup_insert_eq, lookup_insert_ne by done. by rewrite Hc.
    + rewrite lookup_insert_ne by done. by rewrite !lookup_insert_eq.
Qed.

(** C6: [initialize_session] creates what is missing and nothing else, and
    a second call changes nothing.  A missing session becomes the dictionary
    with [initialized = True], [last_activity] the current reading, an empty
    [context] and an empty [history]; a missing conversation becomes the
    empty list; an entry that exists is kept as it is; and the store after
    two calls is the store after one, whatever the clock reads at the second
    call. *)
Theorem initialize_session_idempotent (cfg : AgentConfig) (now now' : Z) (st : SessionState) :
  let a := BaseAgent.agent_of cfg in
  let st1 := BaseAgent.initialize_session a now st in
  st1 !! BaseAgent.session_key a
    = Some (default (SessionV (BaseAgent.new_session now)) (st !! BaseAgent.session_key a))
  /\ st1 !! BaseAgent.conversation_key a
    = Some (default (ConversationV []) (st !! BaseAgent.conversation_key a))
  /\ (BaseAgent.new_session now !! "initialized" = Some (VBool true)
      /\ BaseAgent.new_session now !! "last_activity" = Some (VTime now)
      /\ BaseAgent.new_session now !! "context" = Some (VDict [])
      /\ BaseAgent.new_session now !! "history" = Some (VList []))
  /\ BaseAgent.initialize_session a now' st1 = st1.
Proof.
  intros a st1.
  destruct (initialize_session_lookup a now st (agent_of_keys_differ cfg)) as [Hs Hc].
  split; [exact Hs|]. split; [exact Hc|]. split.
  - repeat split; reflexivity.
  - apply initialize_session_noop; apply initialize_session_present.
Qed.

(** ** The conversation *)

(** Reading back what was stored under the conversation key. *)
Lemma messages_insert (a : BaseAgent.Agent) (st : SessionState) (l : list Message) :
  BaseAgent.messages a (<[BaseAgent.conversation_key a := ConversationV l]> st) = Some l.
Proof.
  unfold BaseAgent.messages, BaseAgent.get_conversation_history.
  by rewrite lookup_insert_eq.
Qed.

(** A constructed agent finds a list under its conversation key: the empty
    one if the key was missing. *)
Lemma messages_after_initialize_session (cfg : AgentConfig) (now : Z) (st : SessionState) :
  st !! BaseAgent.conversation_key (BaseAgent.agent_of cfg) = None ->
  BaseAgent.messages (BaseAgent.agent_of cfg)
    (BaseAgent.initialize_session (BaseAgent.agent_of cfg) now st) = Some [].
Proof.
  intros Hc.
  destruct (initialize_session_lookup (BaseAgent.agent_of cfg) now st
              (agent_of_keys_differ cfg)) as [_ H].
  unfold BaseAgent.messages, BaseAgent.get_conversation_history.
  rewrite H, Hc. done.
Qed.

(** On a store whose conversation entry is a list (or is missing),
    [add_to_conversation] succeeds and appends. *)
Lemma add_to_conversation_appends (a : BaseAgent.Agent) (r c : string)
    (md : option (list (string * PyVal))) (now : Z) (st : SessionState)
    (prior : list Message) :
  BaseAgent.messages a st = Some prior ->
  BaseAgent.add_to_conversation a r c md now st
  = inr (<[BaseAgent.conversation_key a
          := ConversationV (prior ++ [mkMessage r c now (default [] md)])]> st).
Proof.
  unfold BaseAgent.messages, BaseAgent.add_to_conversation.
  destruct (BaseAgent.get_conversation_history a st); try discriminate.
  by intros [= ->].
Qed.

(** C8: a message appended to any conversation is read back as the last
    element with its role and content unchanged (in particular role 'user'
    and content 'hello'); the earlier messages are unchanged and in their
    order; and when no earlier message carries a later reading than the
    clock shows now, the new timestamp is at least every earlier one. *)
Theorem appended_message_round_trip (a : BaseAgent.Agent) (r c : string)
    (md : option (list (string * PyVal))) (now : Z) (st : SessionState)
    (prior : list Message) :
  BaseAgent.messages a st = Some prior ->
  Forall (fun m => (timestamp m <= now)%Z) prior ->
  exists (st' : SessionState) (appended : Message),
    BaseAgent.add_to_conversation a r c md now st = inr st'
    /\ BaseAgent.get_conversation_history a st' = ConversationV (prior ++ [appended])
    /\ last (prior ++ [appended]) = Some appended
    /\ role appended = r
    /\ content appended = c
    /\ take (length prior) (prior ++ [appended]) = prior
    /\ Forall (fun m => (timestamp m <= timestamp appended)%Z) prior.
Proof.
  intros Hm Hclock.
  exists (<[BaseAgent.conversation_key a
           := ConversationV (prior ++ [mkMessage r c now (default [] md)])]> st),
         (mkMessage r c now (default [] md)).
  split; [by apply add_to_conversation_appends|].
  split.
  { unfold BaseAgent.get_conversation_history. by rewrite lookup_insert_eq. }
  split; [apply last_snoc|].
  split; [done|]. split; [done|].
  split; [by rewrite take_app_length|].
  exact Hclock.
Qed.

Lemma appended_message_round_trip_witness :
  exists (st' : SessionState) (appended : Message),
    BaseAgent.add_to_conversation Sample.chat_agent "user" "hello" None 7
      Sample.store_with_history = inr st'
    /\ BaseAgent.get_conversation_history Sample.chat_agent st'
       = ConversationV ([Sample.earlier_message] ++ [appended])
    /\ role appended = "user"
    /\ content appended = "hello"
    /\ (timestamp Sample.earlier_message <= timestamp appended)%Z.
Proof.
  destruct (appended_message_round_trip Sample.chat_agent "user" "hello" None 7
              Sample.store_with_history [Sample.earlier_message])
    as (st' & m & H1 & H2 & _ & H4 & H5 & _ & H7).
  - reflexivity.
  - repeat constructor. simpl. lia.
  - exists st', m. repeat split; try assumption.
    by inversion H7.
Defined.

(** ** The chat driver *)

Section ChatTurn.

Variable process_input : string -> SessionState -> exn + string.

(** C3: a turn with input that is not blank appends exactly two messages,
    the user's input and then an agent message, also when [process_input]
    raises: the agent message is then the error text that embeds the
    description of the failure, and no exception leaves the driver.  The
    Clear Chat button empties the conversation instead.  (A submission of
    the form carries one of its two buttons; the store is assumed to hold a
    list, or nothing, under the conversation key, which is what the program
    itself ever puts there.) *)
Theorem chat_turn_appends_user_then_agent (a : BaseAgent.Agent) (user_input : string)
    (now_user now_agent : Z) (st : SessionState) (prior : list Message) :
  PyStr.truthy (PyStr.strip user_input) = true ->
  BaseAgent.messages a st = Some prior ->
  let user_message := mkMessage "user" user_input now_user [] in
  let st1 := <[BaseAgent.conversation_key a := ConversationV (prior ++ [user_message])]> st in
  let turn :=
    BaseAgent.render_chat_input process_input a user_input true false now_user now_agent st in
  (exists response : string,
      BaseAgent.messages a (flow_state turn)
      = Some (prior ++ [user_message; mkMessage "agent" response now_agent []])
      /\ match process_input user_input st1 with
         | inr answer => response = answer /\ turn = Rerun (flow_state turn)
         | inl e =>
             response = "Sorry, I encountered an error: " +:+ str_exn e
             /\ turn = Return (flow_state turn)
         end)
  /\ (exists after : list Message,
         BaseAgent.messages a (flow_state turn) = Some after
         /\ length after = length prior + 2)
  /\ (forall (e : exn) (st' : SessionState), turn <> Raise e st')
  /\ BaseAgent.messages a
       (flow_state (BaseAgent.render_chat_input process_input a user_input false true
                      now_user now_agent st))
     = Some [].
Proof.
  intros Hinput Hprior user_message st1 turn.
  assert (Hst1 : BaseAgent.add_to_conversation a "user" user_input None now_user st = inr st1)
    by (by apply add_to_conversation_appends).
  assert (Hm1 : BaseAgent.messages a st1 = Some (prior ++ [user_message]))
    by apply messages_insert.
  assert (Hagent : forall text,
             BaseAgent.add_to_conversation a "agent" text None now_agent st1
             = inr (<[BaseAgent.conversation_key a
                     := ConversationV ((prior ++ [user_message])
                                         ++ [mkMessage "agent" text now_agent []])]> st1))
    by (intros text; by apply add_to_conversation_appends).
  assert (Hturn :
    turn = match process_input user_input st1 with
           | inr answer =>
               Rerun (<[BaseAgent.conversation_key a
                        := ConversationV ((prior ++ [user_message])
                                            ++ [mkMessage "agent" answer now_agent []])]> st1)
           | inl e =>
               Return (<[BaseAgent.conversation_key a
                         := ConversationV
                              ((prior ++ [user_message])
                                 ++ [mkMessage "agent"
                                       ("Sorry, I encountered an error: " +:+ str_exn e)
                                       now_agent []])]> st1)
           end).
  { subst turn. unfold BaseAgent.render_chat_input.
    rewrite Hinput. cbn [andb]. rewrite Hst1.
    destruct (process_input user_input st1) as [e|answer]; by rewrite Hagent. }
  split; [|split; [|split]].
  - destruct (process_input user_input st1) as [e|answer] eqn:Hp.
    + exists ("Sorry, I encountered an error: " +:+ str_exn e).
      rewrite Hturn. cbn [flow_state]. rewrite messages_insert, <- app_assoc. done.
    + exists answer.
      rewrite Hturn. cbn [flow_state]. rewrite messages_insert, <- app_assoc. done.
  - rewrite Hturn.
    destruct (process_input user_input st1) as [e|answer]; cbn [flow_state];
      rewrite messages_insert; eexists; (split; [reflexivity|]);
      rewrite !length_app; simpl; lia.
  - intros e st'. rewrite Hturn.
    destruct (process_input user_input st1); discriminate.
  - unfold BaseAgent.render_chat_input. cbn. apply messages_insert.
Qed.

(** C7: the Clear Chat button empties the conversation of the agent and
    leaves every other entry of the store as it was, the session dictionary
    with its context among them. *)
Theorem clear_chat_keeps_session (cfg : AgentConfig) (user_input : string)
    (now_user now_agent : Z) (st : SessionState) :
  let a := BaseAgent.agent_of cfg in
  let cleared :=
    flow_state (BaseAgent.render_chat_input process_input a user_input false true
                  now_user now_agent st) in
  BaseAgent.messages a cleared = Some []
  /\ cleared !! BaseAgent.session_key a = st !! BaseAgent.session_key a
  /\ BaseAgent.get_session_data a cleared = BaseAgent.get_session_data a st
  /\ delete (BaseAgent.conversation_key a) cleared = delete (BaseAgent.conversation_key a) st.
Proof.
  intros a cleared.
  assert (Hc : cleared = <[BaseAgent.conversation_key a := ConversationV []]> st)
    by reflexivity.
  assert (Hne : BaseAgent.conversation_key a <> BaseAgent.session_key a).
  { intros E. symmetry in E. by apply (agent_of_keys_differ cfg). }
  assert (Hs : cleared !! BaseAgent.session_key a = st !! BaseAgent.session_key a).
  { rewrite Hc. by apply lookup_insert_ne. }
  split; [rewrite Hc; apply messages_insert|].
  split; [exact Hs|].
  split; [unfold BaseAgent.get_session_data; by rewrite Hs|].
  rewrite Hc. apply delete_insert_eq.
Qed.

End ChatTurn.

Lemma chat_turn_appends_user_then_agent_witness :
  BaseAgent.messages Sample.chat_agent
    (flow_state (BaseAgent.render_chat_input Sample.failing_process_input Sample.chat_agent
                   "how many orders" true false 7 8 Sample.store_with_history))
  = Some [Sample.earlier_message;
          mkMessage "user" "how many orders" 7 [];
          mkMessage "agent" "Sorry, I encountered an error: connection lost" 8 []].
Proof.
  destruct (chat_turn_appends_user_then_agent Sample.failing_process_input Sample.chat_agent
              "how many orders" 7 8 Sample.store_with_history [Sample.earlier_message])
    as [(response & Hm & Hr) _].
  - reflexivity.
  - reflexivity.
  - simpl in Hr. destruct Hr as [-> _]. exact Hm.
Defined.

(** * Further properties *)

(** ** Keys of the store *)

Lemma append_cons (c : ascii) (s t : string) : String c s +:+ t = String c (s +:+ t).
Proof. reflexivity. Qed.

Lemma append_empty (t : string) : "" +:+ t = t.
Proof. reflexivity. Qed.

Lemma append_length (s t : string) :
  String.length (s +:+ t) = String.length s + String.length t.
Proof.
  induction s as [|c s IH]; [done|].
  rewrite append_cons. simpl. by rewrite IH.
Qed.

Lemma append_assoc (a b c : string) : (a +:+ b) +:+ c = a +:+ (b +:+ c).
Proof.
  induction a as [|x a IH]; [done|].
  rewrite !append_cons. by rewrite IH.
Qed.

(** Two strings that end in suffixes of the same length are equal only if
    the suffixes are, and then the rest is equal too. *)
Lemma append_same_length_suffix (a b s t : string) :
  String.length s = String.length t ->
  a +:+ s = b +:+ t ->
  a = b /\ s = t.
Proof.
  intros Hlen. revert b. induction a as [|c a IH]; intros [|d b] H.
  - done.
  - apply (f_equal String.length) in H. rewrite !append_length in H. simpl in H. lia.
  - apply (f_equal String.length) in H. rewrite !append_length in H. simpl in H. lia.
  - rewrite !append_cons in H. injection H as -> H. destruct (IH b H) as [-> ->]. done.
Qed.

Lemma make_session_key_inj (id1 id2 : string) :
  BaseAgent.make_session_key id1 = BaseAgent.make_session_key id2 -> id1 = id2.
Proof.
  unfold BaseAgent.make_session_key. intros H.
  apply (inj (String.app "agent_")) in H.
  by apply append_same_length_suffix in H as [-> _].
Qed.

Lemma make_conversation_key_inj (id1 id2 : string) :
  BaseAgent.make_conversation_key id1 = BaseAgent.make_conversation_key id2 -> id1 = id2.
Proof.
  unfold BaseAgent.make_conversation_key. intros H.
  apply (inj (String.app "agent_")) in H.
  by apply append_same_length_suffix in H as [-> _].
Qed.

Lemma session_key_never_conversation_key (id1 id2 : string) :
  BaseAgent.make_session_key id1 <> BaseAgent.make_conversation_key id2.
Proof.
  unfold BaseAgent.make_session_key, BaseAgent.make_conversation_key. intros H.
  apply (inj (String.app "agent_")) in H.
  change (id1 +:+ "_session" = id2 +:+ ("_conv" +:+ "ersation")) in H.
  rewrite <- append_assoc in H.
  apply append_same_length_suffix in H; [|reflexivity].
  destruct H as [_ H]. discriminate H.
Qed.

(** The keys of the store never collide: the session key and the
    conversation key are each determined by the agent id alone and
    determine it, and no session key of any agent is the conversation key of
    any agent. *)
Theorem store_keys_never_collide (id1 id2 : string) :
  BaseAgent.make_session_key id1 <> BaseAgent.make_conversation_key id2
  /\ (BaseAgent.make_session_key id1 = BaseAgent.make_session_key id2 <-> id1 = id2)
  /\ (BaseAgent.make_conversation_key id1 = BaseAgent.make_conversation_key id2 <-> id1 = id2).
Proof.
  split; [apply session_key_never_conversation_key|].
  split; (split; [|by intros ->]).
  - apply make_session_key_inj.
  - apply make_conversation_key_inj.
Qed.

Section Frame.

Variable process_input : string -> SessionState -> exn + string.

(** [add_to_conversation] writes under the conversation key only. *)
Lemma add_to_conversation_frame (a : BaseAgent.Agent) (r c : string)
    (md : option (list (string * PyVal))) (now : Z) (st st' : SessionState) (k : string) :
  k <> BaseAgent.conversation_key a ->
  BaseAgent.add_to_conversation a r c md now st = inr st' ->
  st' !! k = st !! k.
Proof.
  intros Hk. unfold BaseAgent.add_to_conversation.
  destruct (BaseAgent.get_conversation_history a st); try discriminate.
  intros [= <-]. by rewrite lookup_insert_ne.
Qed.

(** [render_chat_input] writes under the conversation key of its agent
    only, whatever the buttons, the input and the outcome of
    [process_input] are. *)
Lemma render_chat_input_frame (a : BaseAgent.Agent)
    (user_input : string) (submitted clear_chat : bool) (now_user now_agent : Z)
    (st : SessionState) (k : string) :
  k <> BaseAgent.conversation_key a ->
  flow_state (BaseAgent.render_chat_input process_input a user_input submitted clear_chat
                now_user now_agent st) !! k
  = st !! k.
Proof.
  intros Hk. unfold BaseAgent.render_chat_input.
  destruct (submitted && PyStr.truthy (PyStr.strip user_input)).
  - destruct (BaseAgent.add_to_conversation a "user" user_input None now_user st)
      as [e|st1] eqn:H1; [done|].
    pose proof (add_to_conversation_frame _ _ _ _ _ _ _ k Hk H1) as F1.
    destruct (process_input user_input st1) as [e|response].
    + destruct (BaseAgent.add_to_conversation a "agent" _ None now_agent st1)
        as [e'|st2] eqn:H2; [done|].
      pose proof (add_to_conversation_frame _ _ _ _ _ _ _ k Hk H2) as F2.
      destruct clear_chat; cbn [flow_state].
      * rewrite lookup_insert_ne by done. congruence.
      * congruence.
    + destruct (BaseAgent.add_to_conversation a "agent" response None now_agent st1)
        as [e'|st2] eqn:H2.
      * destruct (BaseAgent.add_to_conversation a "agent"
                    ("Sorry, I encountered an error: " +:+ str_exn e') None now_agent st1)
          as [e''|st3] eqn:H3; [exact F1|].
        pose proof (add_to_conversation_frame _ _ _ _ _ _ _ k Hk H3) as F3.
        destruct clear_chat; cbn [flow_state].
        -- rewrite lookup_insert_ne by done. congruence.
        -- congruence.
      * pose proof (add_to_conversation_frame _ _ _ _ _ _ _ k Hk H2) as F2.
        cbn [flow_state]. congruence.
  - destruct clear_chat; cbn [flow_state]; [|done].
    by rewrite lookup_insert_ne.
Qed.

End Frame.

(** [initialize_session] writes under the two keys of its agent only. *)
Lemma initialize_session_frame (a : BaseAgent.Agent) (now : Z) (st : SessionState)
    (k : string) :
  k <> BaseAgent.session_key a ->
  k <> BaseAgent.conversation_key a ->
  BaseAgent.initialize_session a now st !! k = st !! k.
Proof.
  intros Hs Hc. unfold BaseAgent.initialize_session.
  destruct (st !! BaseAgent.session_key a);
    match goal with |- context [match ?x with _ => _ end] => destruct x end;
    rewrite ?lookup_insert_ne by done; done.
Qed.

(** Two agents with different ids do not share state.  A turn of the chat
    driver of one agent, with any buttons, any input and any outcome of
    [process_input], changes neither its own session nor the session or the
    conversation of the other agent; the same holds for the initialisation
    of its session. *)
Theorem agents_do_not_share_state
    (process_input : string -> SessionState -> exn + string)
    (cfg_a cfg_b : AgentConfig) (user_input : string) (submitted clear_chat : bool)
    (now_user now_agent : Z) (st : SessionState) :
  id cfg_a <> id cfg_b ->
  let a := BaseAgent.agent_of cfg_a in
  let b := BaseAgent.agent_of cfg_b in
  let after_turn :=
    flow_state (BaseAgent.render_chat_input process_input a user_input submitted clear_chat
                  now_user now_agent st) in
  let after_init := BaseAgent.initialize_session a now_user st in
  after_turn !! BaseAgent.session_key a = st !! BaseAgent.session_key a
  /\ after_turn !! BaseAgent.session_key b = st !! BaseAgent.session_key b
  /\ after_turn !! BaseAgent.conversation_key b = st !! BaseAgent.conversation_key b
  /\ after_init !! BaseAgent.session_key b = st !! BaseAgent.session_key b
  /\ after_init !! BaseAgent.conversation_key b = st !! BaseAgent.conversation_key b.
Proof.
  intros Hid a b after_turn after_init.
  assert (Hss : BaseAgent.session_key b <> BaseAgent.session_key a).
  { intros H. apply make_session_key_inj in H. congruence. }
  assert (Hcc : BaseAgent.conversation_key b <> BaseAgent.conversation_key a).
  { intros H. apply make_conversation_key_inj in H. congruence. }
  assert (Hsc : forall x y : AgentConfig,
             BaseAgent.session_key (BaseAgent.agent_of x)
             <> BaseAgent.conversation_key (BaseAgent.agent_of y)).
  { intros x y. apply session_key_never_conversation_key. }
  assert (Hcs : forall x y : AgentConfig,
             BaseAgent.conversation_key (BaseAgent.agent_of x)
             <> BaseAgent.session_key (BaseAgent.agent_of y)).
  { intros x y H. symmetry in H. by apply Hsc in H. }
  repeat split.
  - apply render_chat_input_frame, Hsc.
  - apply render_chat_input_frame, Hsc.
  - by apply render_chat_input_frame.
  - apply initialize_session_frame; [done | apply Hsc].
  - apply initialize_session_frame; [apply Hcs | done].
Qed.

Lemma agents_do_not_share_state_witness :
  flow_state (BaseAgent.render_chat_input Sample.failing_process_input
                (BaseAgent.agent_of brd_generator_config) "generate a brd" true false 7 8
                Sample.store_with_history)
    !! BaseAgent.conversation_key (BaseAgent.agent_of database_chat_config)
  = Sample.store_with_history
      !! BaseAgent.conversation_key (BaseAgent.agent_of database_chat_config).
Proof.
  apply (agents_do_not_share_state Sample.failing_process_input brd_generator_config
           database_chat_config "generate a brd" true false 7 8 Sample.store_with_history).
  intros H. vm_compute in H. discriminate H.
Defined.

(** ** Session data *)

(** [update_session_data] merges: a session that is missing counts as an
    empty one; afterwards [last_activity] is the current reading, also when
    the update carries a [last_activity] of its own; every other key holds
    the value of the update if the update has the key and its old value
    otherwise; and no other entry of the store changes. *)
Theorem update_session_data_merges (a : BaseAgent.Agent) (data d : gmap string PyVal)
    (now : Z) (st : SessionState) :
  BaseAgent.get_session_data a st = SessionV d ->
  exists d' : gmap string PyVal,
    BaseAgent.update_session_data a data now st
    = inr (<[BaseAgent.session_key a := SessionV d']> st)
    /\ d' !! "last_activity" = Some (VTime now)
    /\ (forall k : string, k <> "last_activity" ->
          d' !! k = match data !! k with Some v => Some v | None => d !! k end).
Proof.
  intros Hd. exists (<["last_activity" := VTime now]> (data ∪ d)).
  split; [|split].
  - unfold BaseAgent.update_session_data. by rewrite Hd.
  - apply lookup_insert_eq.
  - intros k Hk. rewrite lookup_insert_ne by done.
    rewrite lookup_union. destruct (data !! k), (d !! k); done.
Qed.

Lemma update_session_data_merges_witness :
  exists d' : gmap string PyVal,
    BaseAgent.update_session_data Sample.chat_agent
      (<["last_activity" := VTime 1]> (<["host" := VStr "db1"]> ∅)) 9 ∅
    = inr (<[BaseAgent.session_key Sample.chat_agent := SessionV d']> ∅)
    /\ d' !! "last_activity" = Some (VTime 9)
    /\ d' !! "host" = Some (VStr "db1")
    /\ d' !! "initialized" = None.
Proof.
  destruct (update_session_data_merges Sample.chat_agent
              (<["last_activity" := VTime 1]> (<["host" := VStr "db1"]> ∅)) ∅ 9 ∅)
    as (d' & H1 & H2 & H3).
  - reflexivity.
  - exists d'. split; [exact H1|]. split; [exact H2|].
    split; [rewrite H3 by done; reflexivity | rewrite H3 by done; reflexivity].
Defined.

(** ** Reset and New Chat *)

Lemma reset_is_two_deletes (a : BaseAgent.Agent) (st : SessionState) :
  AgentSelector.reset a st
  = delete (BaseAgent.conversation_key a) (delete (BaseAgent.session_key a) st).
Proof.
  unfold AgentSelector.reset.
  destruct (st !! BaseAgent.session_key a) eqn:Hs.
  - destruct (delete (BaseAgent.session_key a) st !! BaseAgent.conversation_key a) eqn:Hc;
      [done|]. symmetry. by apply delete_id.
  - rewrite (delete_id st (BaseAgent.session_key a)) by done.
    destruct (st !! BaseAgent.conversation_key a) eqn:Hc; [done|].
    symmetry. by apply delete_id.
Qed.

(** The Reset button forgets the agent: its session and its conversation
    are gone (they read as the empty dictionary and the empty list), every
    other entry of the store is kept, and initialising the session again
    produces a fresh session and an empty conversation, whatever was stored
    before. *)
Theorem reset_forgets_agent (cfg : AgentConfig) (now : Z) (st : SessionState) :
  let a := BaseAgent.agent_of cfg in
  let st' := AgentSelector.reset a st in
  st' !! BaseAgent.session_key a = None
  /\ st' !! BaseAgent.conversation_key a = None
  /\ BaseAgent.get_session_data a st' = SessionV ∅
  /\ BaseAgent.messages a st' = Some []
  /\ (forall k : string,
        k <> BaseAgent.session_key a -> k <> BaseAgent.conversation_key a ->
        st' !! k = st !! k)
  /\ BaseAgent.initialize_session a now st' !! BaseAgent.session_key a
     = Some (SessionV (BaseAgent.new_session now))
  /\ BaseAgent.initialize_session a now st' !! BaseAgent.conversation_key a
     = Some (ConversationV []).
Proof.
  intros a st'.
  assert (Hne : BaseAgent.session_key a <> BaseAgent.conversation_key a)
    by apply agent_of_keys_differ.
  assert (Hs : st' !! BaseAgent.session_key a = None).
  { subst st'. rewrite reset_is_two_deletes.
    rewrite lookup_delete_ne by done. apply lookup_delete_eq. }
  assert (Hc : st' !! BaseAgent.conversation_key a = None).
  { subst st'. rewrite reset_is_two_deletes. apply lookup_delete_eq. }
  destruct (initialize_session_lookup a now st' Hne) as [Is Ic].
  rewrite Hs in Is. rewrite Hc in Ic.
  split; [exact Hs|]. split; [exact Hc|].
  split; [unfold BaseAgent.get_session_data; by rewrite Hs|].
  split; [unfold BaseAgent.messages, BaseAgent.get_conversation_history; by rewrite Hc|].
  split; [|split; [exact Is | exact Ic]].
  intros k Hks Hkc. subst st'. rewrite reset_is_two_deletes.
  by rewrite !lookup_delete_ne.
Qed.

Lemma lookup_foldl_delete (ks : list string) (st : SessionState) (k : string) :
  foldl (fun s key => delete key s) st ks !! k
  = if decide (k ∈ ks) then None else st !! k.
Proof.
  revert st. induction ks as [|x ks IH]; intros st; cbn [foldl].
  - rewrite decide_False; [done|]. apply not_elem_of_nil.
  - rewrite IH. clear IH. destruct (decide (k = x)) as [->|Hx].
    + rewrite lookup_delete_eq.
      rewrite (decide_True (P := x ∈ x :: ks)) by apply list_elem_of_here.
      by destruct (decide (x ∈ ks)).
    + rewrite lookup_delete_ne by done. destruct (decide (k ∈ ks)) as [Hin|Hin].
      * by rewrite decide_True by (by apply list_elem_of_further).
      * rewrite decide_False; [done|].
        intros H. apply elem_of_cons in H. by destruct H.
Qed.

Lemma new_chat_lookup (st : SessionState) (k : string) :
  Main.new_chat st !! k
  = if String.eqb k "selected_agent" then Some (OtherV VNone)
    else if Main.is_agent_key k then None
    else st !! k.
Proof.
  unfold Main.new_chat.
  destruct (String.eqb k "selected_agent") eqn:Ek.
  - apply String.eqb_eq in Ek. subst k. apply lookup_insert_eq.
  - apply String.eqb_neq in Ek. rewrite lookup_insert_ne by done.
    rewrite lookup_foldl_delete.
    destruct (decide (k ∈ List.filter Main.is_agent_key (map fst (map_to_list st))))
      as [Hin|Hin].
    + apply list_elem_of_In, filter_In in Hin. destruct Hin as [_ ->]. done.
    + destruct (Main.is_agent_key k) eqn:Hkey; [|done].
      destruct (st !! k) as [v|] eqn:Hk; [|done].
      exfalso. apply Hin. apply list_elem_of_In, filter_In. split; [|done].
      apply in_map_iff. exists (k, v). split; [done|].
      apply list_elem_of_In. by apply elem_of_map_to_list.
Qed.

(** New Chat removes every entry whose key starts with "agent_" or
    "conversation_", sets [selected_agent] to [None] and keeps every other
    entry.  So the session and the conversation of every agent are gone, and
    with them the entries [agent_manager], [agent_configs], [agent_history]
    and [conversation_history] of the application itself; the user profile
    stays. *)
Theorem new_chat_removes_prefixed_keys (st : SessionState) (cfg : AgentConfig) (k : string) :
  Main.new_chat st !! k
  = (if String.eqb k "selected_agent" then Some (OtherV VNone)
     else if Main.is_agent_key k then None
     else st !! k)
  /\ Main.new_chat st !! BaseAgent.session_key (BaseAgent.agent_of cfg) = None
  /\ Main.new_chat st !! BaseAgent.conversation_key (BaseAgent.agent_of cfg) = None
  /\ Main.new_chat st !! "agent_manager" = None
  /\ Main.new_chat st !! "agent_configs" = None
  /\ Main.new_chat st !! "agent_history" = None
  /\ Main.new_chat st !! "conversation_history" = None
  /\ Main.new_chat st !! "user_profile" = st !! "user_profile"
  /\ BaseAgent.messages (BaseAgent.agent_of cfg) (Main.new_chat st) = Some [].
Proof.
  assert (Hc : Main.new_chat st !! BaseAgent.conversation_key (BaseAgent.agent_of cfg) = None).
  { rewrite new_chat_lookup. reflexivity. }
  split; [apply new_chat_lookup|].
  split; [rewrite new_chat_lookup; reflexivity|].
  split; [exact Hc|].
  do 5 (split; [rewrite new_chat_lookup; reflexivity|]).
  unfold BaseAgent.messages, BaseAgent.get_conversation_history. by rewrite Hc.
Qed.

(** ** Dictionaries with insertion order *)

Section DictFacts.

Context {V : Type}.
Implicit Types (d : list (string * V)) (k : string) (v : V).

Lemma dict_get_set_eq d k v : Dict.get k (Dict.set k v d) = Some v.
Proof.
  induction d as [|[k' v'] d IH]; simpl.
  - by rewrite String.eqb_refl.
  - destruct (String.eqb k k') eqn:E; simpl; rewrite ?String.eqb_refl, ?E; done.
Qed.

Lemma dict_get_set_ne d k k' v : k' <> k -> Dict.get k' (Dict.set k v d) = Dict.get k' d.
Proof.
  intros Hne. apply String.eqb_neq in Hne.
  induction d as [|[k0 v0] d IH]; simpl.
  - by rewrite Hne.
  - destruct (String.eqb k k0) eqn:E; simpl.
    + apply String.eqb_eq in E. subst k0. by rewrite Hne.
    + by rewrite IH.
Qed.

Lemma dict_mem_keys d k : Dict.mem k d = true <-> In k (Dict.keys d).
Proof.
  unfold Dict.mem. rewrite existsb_exists. split.
  - intros (x & Hx & E). apply String.eqb_eq in E. by subst.
  - intros H. exists k. split; [done|apply String.eqb_refl].
Qed.

Lemma dict_get_none_keys d k : Dict.get k d = None <-> ~ In k (Dict.keys d).
Proof.
  induction d as [|[k' v'] d IH]; simpl; [tauto|].
  destruct (String.eqb k k') eqn:E.
  - apply String.eqb_eq in E. subst. split; [done|]. intros H. exfalso. apply H. by left.
  - apply String.eqb_neq in E. rewrite IH. split.
    + intros H [?|?]; [congruence|done].
    + intros H ?. apply H. by right.
Qed.

Lemma dict_keys_set d k v :
  Dict.keys (Dict.set k v d) = if Dict.mem k d then Dict.keys d else Dict.keys d ++ [k].
Proof.
  induction d as [|[k' v'] d IH]; [done|].
  unfold Dict.mem in *. simpl. destruct (String.eqb k k') eqn:E; simpl.
  - apply String.eqb_eq in E. by subst.
  - rewrite IH. by destruct (existsb (String.eqb k) (Dict.keys d)).
Qed.

Lemma dict_set_NoDup d k v : List.NoDup (Dict.keys d) -> List.NoDup (Dict.keys (Dict.set k v d)).
Proof.
  intros H. rewrite dict_keys_set. destruct (Dict.mem k d) eqn:E; [done|].
  apply NoDup_ListNoDup. apply NoDup_app. split; [by apply NoDup_ListNoDup|].
  split; [|apply NoDup_singleton].
  intros x Hx Hk. apply list_elem_of_singleton in Hk. subst x.
  apply list_elem_of_In, dict_mem_keys in Hx. congruence.
Qed.

Lemma dict_get_delete_ne d k k' : k' <> k -> Dict.get k' (Dict.delete k d) = Dict.get k' d.
Proof.
  intros Hne. apply String.eqb_neq in Hne.
  induction d as [|[k0 v0] d IH]; simpl; [done|].
  destruct (String.eqb k k0) eqn:E; simpl.
  - apply String.eqb_eq in E. subst k0. by rewrite Hne.
  - by rewrite IH.
Qed.

Lemma dict_get_delete_eq d k : List.NoDup (Dict.keys d) -> Dict.get k (Dict.delete k d) = None.
Proof.
  induction d as [|[k0 v0] d IH]; simpl; [done|].
  intros H. apply List.NoDup_cons_iff in H as [Hnotin H].
  destruct (String.eqb k k0) eqn:E; simpl.
  - apply String.eqb_eq in E. subst k0. by apply dict_get_none_keys.
  - rewrite E. by apply IH.
Qed.

Lemma dict_keys_delete d k :
  List.NoDup (Dict.keys d) ->
  Dict.keys (Dict.delete k d) = List.remove string_dec k (Dict.keys d).
Proof.
  induction d as [|[k0 v0] d IH]; simpl; [done|].
  intros H. apply List.NoDup_cons_iff in H as [Hnotin H].
  destruct (String.eqb k k0) eqn:E.
  - apply String.eqb_eq in E. subst k0.
    destruct (string_dec k k); [|done]. symmetry. by apply notin_remove.
  - apply String.eqb_neq in E. destruct (string_dec k k0); [done|].
    simpl. f_equal. by apply IH.
Qed.

Lemma dict_delete_absent d k : Dict.get k d = None -> Dict.delete k d = d.
Proof.
  induction d as [|[k0 v0] d IH]; simpl; [done|].
  destruct (String.eqb k k0); [done|]. intros H. by rewrite IH.
Qed.

Lemma dict_delete_set_fresh d k v : Dict.get k d = None -> Dict.delete k (Dict.set k v d) = d.
Proof.
  induction d as [|[k0 v0] d IH]; simpl.
  - by rewrite String.eqb_refl.
  - destruct (String.eqb k k0) eqn:E; [done|]. intros H. simpl. rewrite E. by rewrite IH.
Qed.

Lemma dict_delete_NoDup d k : List.NoDup (Dict.keys d) -> List.NoDup (Dict.keys (Dict.delete k d)).
Proof.
  induction d as [|[k0 v0] d IH]; simpl; [done|].
  intros H. apply List.NoDup_cons_iff in H as [Hnotin H].
  destruct (String.eqb k k0); [done|]. simpl. apply List.NoDup_cons; [|by apply IH].
  intros Hin. apply Hnotin. apply dict_get_none_keys in Hnotin.
  destruct (string_dec k0 k) as [->|Hne].
  - exfalso. apply dict_get_none_keys in Hin; [done|].
    by apply dict_get_delete_eq.
  - apply Decidable.not_not; [unfold Decidable.decidable;
      destruct (in_dec string_dec k0 (Dict.keys d)); tauto|].
    intros Habs. apply dict_get_none_keys in Habs.
    apply (dict_get_none_keys (Dict.delete k d) k0); [|done].
    by rewrite dict_get_delete_ne.
Qed.

End DictFacts.

(** ** Registering and unregistering agents *)

(** After [register_agent] the id looks up to the agent just registered
    and every other id looks up as before; an id that was present keeps its
    place in [list_agent_ids], a new one goes last; and the ids stay free of
    repetitions. *)
Theorem register_agent_round_trip {Instance : Type} (agent_id : string) (agent : Instance)
    (agents : list (string * Instance)) :
  List.NoDup (AgentRegistry.list_agent_ids agents) ->
  let agents' := AgentRegistry.register_agent agent_id agent agents in
  AgentRegistry.get_agent agent_id agents' = Some agent
  /\ (forall other : string, other <> agent_id ->
        AgentRegistry.get_agent other agents' = AgentRegistry.get_agent other agents)
  /\ AgentRegistry.list_agent_ids agents'
     = match AgentRegistry.get_agent agent_id agents with
       | Some _ => AgentRegistry.list_agent_ids agents
       | None => AgentRegistry.list_agent_ids agents ++ [agent_id]
       end
  /\ List.NoDup (AgentRegistry.list_agent_ids agents').
Proof.
  intros Hnd agents'. subst agents'.
  unfold AgentRegistry.register_agent, AgentRegistry.get_agent, AgentRegistry.list_agent_ids.
  split; [apply dict_get_set_eq|].
  split; [intros other Hne; by apply dict_get_set_ne|].
  split; [|by apply dict_set_NoDup].
  rewrite dict_keys_set.
  destruct (Dict.get agent_id agents) as [v|] eqn:Hg.
  - assert (Dict.mem agent_id agents = true) as ->; [|done].
    apply dict_mem_keys.
    destruct (in_dec string_dec agent_id (Dict.keys agents)) as [Hin|Hin]; [done|].
    apply dict_get_none_keys in Hin. congruence.
  - assert (Dict.mem agent_id agents = false) as ->; [|done].
    apply not_true_is_false. intros Hm. apply dict_mem_keys in Hm.
    by apply dict_get_none_keys in Hg.
Qed.

Lemma register_agent_round_trip_witness :
  AgentRegistry.list_agent_ids
    (AgentRegistry.register_agent "brd_generator" 3
       [("brd_generator", 1); ("database_chat", 2)])
  = ["brd_generator"; "database_chat"]
  /\ AgentRegistry.get_agent "brd_generator"
       (AgentRegistry.register_agent "brd_generator" 3
          [("brd_generator", 1); ("database_chat", 2)]) = Some 3.
Proof.
  destruct (register_agent_round_trip "brd_generator" 3
              [("brd_generator", 1); ("database_chat", 2)]) as (H1 & _ & H3 & _).
  - repeat constructor; simpl; intuition discriminate.
  - split; [exact H3 | exact H1].
Defined.

(** After [unregister_agent] the id is absent and every other id looks up
    as before, in the same order; unregistering an id that is not
    registered changes nothing. *)
Theorem unregister_agent_removes_only_that_id {Instance : Type} (agent_id : string)
    (agents : list (string * Instance)) :
  List.NoDup (AgentRegistry.list_agent_ids agents) ->
  let agents' := AgentRegistry.unregister_agent agent_id agents in
  AgentRegistry.get_agent agent_id agents' = None
  /\ (forall other : string, other <> agent_id ->
        AgentRegistry.get_agent other agents' = AgentRegistry.get_agent other agents)
  /\ AgentRegistry.list_agent_ids agents'
     = List.remove string_dec agent_id (AgentRegistry.list_agent_ids agents)
  /\ List.NoDup (AgentRegistry.list_agent_ids agents')
  /\ (AgentRegistry.get_agent agent_id agents = None -> agents' = agents).
Proof.
  intros Hnd agents'. subst agents'.
  unfold AgentRegistry.unregister_agent, AgentRegistry.get_agent,
    AgentRegistry.list_agent_ids in *.
  destruct (Dict.mem agent_id agents) eqn:Hm.
  - split; [by apply dict_get_delete_eq|].
    split; [intros other Hne; by apply dict_get_delete_ne|].
    split; [by apply dict_keys_delete|].
    split; [by apply dict_delete_NoDup|].
    intros Hg. by apply dict_delete_absent.
  - assert (Hg : Dict.get agent_id agents = None).
    { apply dict_get_none_keys. intros Hin. apply dict_mem_keys in Hin. congruence. }
    split; [exact Hg|]. split; [done|].
    split; [|done]. symmetry. apply notin_remove. by apply dict_get_none_keys.
Qed.

Lemma unregister_agent_removes_only_that_id_witness :
  AgentRegistry.list_agent_ids
    (AgentRegistry.unregister_agent "brd_generator"
       [("brd_generator", 1); ("database_chat", 2)])
  = ["database_chat"]
  /\ AgentRegistry.unregister_agent "unknown" [("brd_generator", 1); ("database_chat", 2)]
     = [("brd_generator", 1); ("database_chat", 2)].
Proof.
  split.
  - destruct (unregister_agent_removes_only_that_id "brd_generator"
                [("brd_generator", 1); ("database_chat", 2)]) as (_ & _ & H3 & _).
    + repeat constructor; simpl; intuition discriminate.
    + exact H3.
  - reflexivity.
Defined.

(** Registering an id that is not registered and unregistering it again
    gives back the registry as it was. *)
Theorem register_then_unregister {Instance : Type} (agent_id : string) (agent : Instance)
    (agents : list (string * Instance)) :
  AgentRegistry.get_agent agent_id agents = None ->
  AgentRegistry.unregister_agent agent_id (AgentRegistry.register_agent agent_id agent agents)
  = agents.
Proof.
  intros Hg. unfold AgentRegistry.unregister_agent, AgentRegistry.register_agent,
    AgentRegistry.get_agent in *.
  assert (Dict.mem agent_id (Dict.set agent_id agent agents) = true) as ->.
  { apply dict_mem_keys.
    destruct (in_dec string_dec agent_id (Dict.keys (Dict.set agent_id agent agents)))
      as [Hin|Hin]; [done|].
    apply dict_get_none_keys in Hin. by rewrite dict_get_set_eq in Hin. }
  by apply dict_delete_set_fresh.
Qed.

Lemma register_then_unregister_witness :
  AgentRegistry.unregister_agent "helper"
    (AgentRegistry.register_agent "helper" 3 [("brd_generator", 1); ("database_chat", 2)])
  = [("brd_generator", 1); ("database_chat", 2)].
Proof. apply register_then_unregister. reflexivity. Defined.

(** ** What the loaders register *)

Lemma get_available_agents_sound (configs : list (string * AgentConfig)) (k : string)
    (cfg : AgentConfig) :
  Dict.get k (get_available_agents configs) = Some cfg ->
  status cfg = "active" /\ In (k, cfg) configs.
Proof.
  unfold get_available_agents.
  induction configs as [|[k0 c0] configs IH]; simpl; [done|].
  destruct (String.eqb (status c0) "active") eqn:Ea; simpl.
  - destruct (String.eqb k k0) eqn:Ek.
    + intros [= <-]. apply String.eqb_eq in Ea, Ek. subst. split; [done|by left].
    + intros H. destruct (IH H) as [? ?]. split; [done|by right].
  - intros H. destruct (IH H) as [? ?]. split; [done|by right].
Qed.

Lemma get_available_agents_lookup (configs : list (string * AgentConfig)) (k : string) :
  List.NoDup (Dict.keys configs) ->
  Dict.get k (get_available_agents configs)
  = match Dict.get k configs with
    | Some cfg => if String.eqb (status cfg) "active" then Some cfg else None
    | None => None
    end.
Proof.
  unfold get_available_agents.
  induction configs as [|[k0 c0] configs IH]; simpl; [done|].
  intros H. apply List.NoDup_cons_iff in H as [Hnotin H].
  destruct (String.eqb (status c0) "active") eqn:Ea; simpl.
  - destruct (String.eqb k k0); [by rewrite Ea | by apply IH].
  - rewrite (IH H). destruct (String.eqb k k0) eqn:Ek; [|done].
    apply String.eqb_eq in Ek. subst k0.
    apply dict_get_none_keys in Hnotin. by rewrite Hnotin, Ea.
Qed.

(** Whatever the catalog, the constructors and the outcome of the imports
    are, [AgentRegistry.__init__] registers only the ids brd_generator and
    database_chat, in that order and without repetition; it registers
    nothing when an import fails; and every agent it registers is the value
    its own constructor returned for a configuration of the catalog whose
    status is active. *)
Theorem registry_holds_only_built_active_agents {Instance : Type}
    (BRD DB : AgentConfig -> exn + Instance) (import_agents : option exn)
    (configs : list (string * AgentConfig)) :
  let agents := AgentRegistry.init BRD DB import_agents configs in
  In (AgentRegistry.list_agent_ids agents)
     [[]; ["brd_generator"]; ["database_chat"]; ["brd_generator"; "database_chat"]]
  /\ match import_agents with Some _ => agents = [] | None => True end
  /\ forall (agent_id : string) (agent : Instance),
       AgentRegistry.get_agent agent_id agents = Some agent ->
       exists cfg : AgentConfig,
         In (agent_id, cfg) configs
         /\ status cfg = "active"
         /\ ((agent_id = "brd_generator" /\ BRD cfg = inr agent)
             \/ (agent_id = "database_chat" /\ DB cfg = inr agent)).
Proof.
  intros agents. subst agents.
  unfold AgentRegistry.init, AgentRegistry._load_agents.
  destruct import_agents as [e|]; cbn [fst].
  { split; [by left|]. split; [done|]. intros ? ? H. discriminate H. }
  unfold AgentRegistry.load_both, AgentRegistry.register_if_configured.
  destruct (Dict.get "brd_generator" (get_available_agents configs)) as [c1|] eqn:G1;
    [destruct (BRD c1) as [e1|a1] eqn:B1|];
    (destruct (Dict.get "database_chat" (get_available_agents configs)) as [c2|] eqn:G2;
     [destruct (DB c2) as [e2|a2] eqn:B2|]);
    cbn;
    (split; [tauto|]); (split; [done|]);
    intros agent_id agent; unfold AgentRegistry.get_agent; cbn;
    repeat match goal with
      | |- context [String.eqb ?x ?y] =>
          let E := fresh "E" in destruct (String.eqb x y) eqn:E;
          [apply String.eqb_eq in E; subst|]
      end;
    intros H; try discriminate H; injection H as <-;
    try (destruct (get_available_agents_sound _ _ _ G1) as [? ?]; exists c1; by eauto 6);
    try (destruct (get_available_agents_sound _ _ _ G2) as [? ?]; exists c2; by eauto 6).
Qed.

(** The two loaders disagree on an agent whose status is not active:
    [AgentRegistry] leaves it out, [AgentManager.load_agents] builds and
    registers it. *)
Theorem inactive_agent_loaded_by_manager_only {Instance : Type}
    (BRD DB : AgentConfig -> exn + Instance) (import_agents : option exn)
    (configs : list (string * AgentConfig)) (cfg : AgentConfig) (agent : Instance) :
  List.NoDup (Dict.keys configs) ->
  Dict.get "brd_generator" configs = Some cfg ->
  String.eqb (status cfg) "active" = false ->
  BRD cfg = inr agent ->
  AgentRegistry.get_agent "brd_generator"
    (AgentRegistry.init BRD DB import_agents configs) = None
  /\ AgentRegistry.get_agent "brd_generator"
       (fst (AgentRegistry.load_agents BRD DB configs [])) = Some agent.
Proof.
  intros Hnd Hg Hs Hb. split.
  - unfold AgentRegistry.init, AgentRegistry._load_agents.
    destruct import_agents; [done|].
    unfold AgentRegistry.load_both, AgentRegistry.register_if_configured.
    rewrite (get_available_agents_lookup configs "brd_generator" Hnd), Hg, Hs.
    destruct (Dict.get "database_chat" (get_available_agents configs)) as [c2|];
      [destruct (DB c2)|]; done.
  - unfold AgentRegistry.load_agents, AgentRegistry.load_both,
      AgentRegistry.register_if_configured.
    rewrite Hg, Hb.
    destruct (Dict.get "database_chat" configs) as [c2|]; [destruct (DB c2)|]; done.
Qed.

Lemma inactive_agent_loaded_by_manager_only_witness :
  AgentRegistry.get_agent "brd_generator"
    (AgentRegistry.init Sample.working_db Sample.working_db None Sample.catalog_with_inactive)
  = None
  /\ is_Some
       (AgentRegistry.get_agent "brd_generator"
          (fst (AgentRegistry.load_agents Sample.working_db Sample.working_db
                  Sample.catalog_with_inactive []))).
Proof.
  destruct (inactive_agent_loaded_by_manager_only Sample.working_db Sample.working_db None
              Sample.catalog_with_inactive Sample.inactive_brd_config
              (fst (DatabaseChatAgent.init Sample.inactive_brd_config 0 ∅))) as [H1 H2].
  - repeat constructor; simpl; intuition discriminate.
  - reflexivity.
  - reflexivity.
  - reflexivity.
  - split; [exact H1|]. rewrite H2. eauto.
Defined.

(** ** Queries through the connector *)

(** [execute_query] sorted by outcome, for a statement in the ASCII range.
    A failure carries a message and no data.  Data comes back only for a
    statement that starts with SELECT once stripped and upper-cased, and
    then the cursor was opened, the statement run, the rows fetched and the
    cursor closed, with no commit.  Any other statement that succeeds is
    committed exactly once and reports "Query executed successfully".  In
    every case the driver calls made so far are kept and new ones are added
    after them. *)
Theorem execute_query_outcomes (c : Oracle.OracleConnector) (query : string)
    (log : list Oracle.DriverCall) :
  PyStr.is_ascii query = true ->
  let is_select := PyStr.startswith "SELECT" (PyStr.upper (PyStr.strip query)) in
  match Oracle.execute_query c query log with
  | ((false, data, message), log') =>
      data = None /\ is_Some message
      /\ exists calls, log' = log ++ calls
  | ((true, Some _, message), log') =>
      message = None /\ is_select = true
      /\ log' = log ++ [Oracle.CallCursor; Oracle.CallExecute query;
                        Oracle.CallFetchall; Oracle.CallCursorClose]
  | ((true, None, message), log') =>
      message = Some "Query executed successfully" /\ is_select = false
      /\ log' = log ++ [Oracle.CallCursor; Oracle.CallExecute query;
                        Oracle.CallCommit; Oracle.CallCursorClose]
  end.
Proof.
  intros _ is_select. subst is_select. unfold Oracle.execute_query.
  destruct (Oracle.connection c) as [h|].
  - destruct (Oracle.db_run h query) as [e|df].
    + split; [done|]. split; [eauto|]. eexists. reflexivity.
    + destruct (PyStr.startswith "SELECT" (PyStr.upper (PyStr.strip query))) eqn:E.
      * split; [done|]. split; [done|]. by rewrite <- app_assoc.
      * destruct (Oracle.db_commit h) as [e|].
        -- split; [done|]. split; [eauto|]. eexists. by rewrite <- app_assoc.
        -- split; [done|]. split; [done|]. by rewrite <- app_assoc.
  - split; [done|]. split; [eauto|]. exists []. by rewrite app_nil_r.
Qed.

Lemma execute_query_outcomes_witness :
  match Oracle.execute_query Sample.connected_connector "delete from orders"
          [Oracle.CallCursor] with
  | ((true, None, message), log') =>
      message = Some "Query executed successfully"
      /\ log' = [Oracle.CallCursor; Oracle.CallCursor;
                 Oracle.CallExecute "delete from orders";
                 Oracle.CallCommit; Oracle.CallCursorClose]
  | _ => False
  end.
Proof.
  pose proof (execute_query_outcomes Sample.connected_connector "delete from orders"
                [Oracle.CallCursor] eq_refl) as H.
  cbv zeta in H.
  destruct (Oracle.execute_query Sample.connected_connector "delete from orders"
              [Oracle.CallCursor]) as [[[ok data] message] log'] eqn:E.
  vm_compute in E. injection E as <- <- <- <-.
  destruct H as (H1 & _ & H2). split; [exact H1 | exact H2].
Defined.

(** [get_table_list] never raises and names a table only when a live
    connection answered the catalog query: without a connection, and when
    the driver fails, the list is empty. *)
Theorem get_table_list_empty_without_answer (c : Oracle.OracleConnector)
    (log : list Oracle.DriverCall) :
  match Oracle.connection c with
  | None => Oracle.get_table_list c log = ([], log)
  | Some h =>
      match Oracle.db_run h Oracle.table_list_sql with
      | inl _ => fst (Oracle.get_table_list c log) = []
      | inr df =>
          forall table : string,
            In table (fst (Oracle.get_table_list c log)) ->
            exists row : list string, In row (Oracle.df_rows df) /\ hd_error row = Some table
      end
  end.
Proof.
  unfold Oracle.get_table_list.
  destruct (Oracle.connection c) as [h|]; [|done].
  destruct (Oracle.db_run h Oracle.table_list_sql) as [e|df]; [done|].
  generalize (Oracle.df_rows df). intros rows.
  assert (H : forall tables, Oracle.first_column rows = Some tables ->
              forall table, In table tables ->
              exists row, In row rows /\ hd_error row = Some table).
  { induction rows as [|[|x row] rows IH]; simpl.
    - intros tables [= <-] table [].
    - done.
    - destruct (Oracle.first_column rows) as [xs|]; [|done].
      intros tables [= <-] table [<-|Hin].
      + exists (x :: row). split; [by left|done].
      + destruct (IH xs eq_refl table Hin) as (r & Hr & Hh).
        exists r. split; [by right|done]. }
  destruct (Oracle.first_column rows) as [tables|] eqn:E; simpl; [|done].
  by apply H.
Qed.

(** ** Connecting *)

Section Connecting.

Variable makedsn : string -> Z -> string -> exn + string.
Variable cx_connect : string -> string -> string -> exn + Oracle.Connection.

(** A failed login does not disconnect the agent.  When the driver refuses
    the login, pressing Connect replaces the connector by a new one without
    a connection and leaves [connection_status] as it was; an agent that was
    connected therefore still shows "connected" while every query through
    its connector fails with "No active connection".  The store is not
    touched. *)
Theorem failed_reconnect_keeps_status (a : DatabaseChatAgent.Agent)
    (h : string) (pt : Z) (sn username pw : string) (connected_at now : Z)
    (st : SessionState) :
  PyStr.truthy username = true ->
  PyStr.truthy pw = true ->
  (forall dsn : string, exists e : exn, cx_connect username pw dsn = inl e) ->
  let '(a', flow) :=
    OracleDriver.connect_action true makedsn cx_connect a h pt sn username pw true
      connected_at now st in
  flow = Return st
  /\ DatabaseChatAgent.connection_status a' = DatabaseChatAgent.connection_status a
  /\ DatabaseChatAgent.oracle_connector a' = Some (Oracle.init h username pw pt sn)
  /\ forall (query : string) (log : list Oracle.DriverCall),
       Oracle.execute_query (Oracle.init h username pw pt sn) query log
       = ((false, None, Some "No active connection"), log).
Proof.
  intros Hu Hp Hrefuse.
  unfold OracleDriver.connect_action. cbn [negb]. rewrite Hu, Hp. cbn [andb].
  assert (Hc : OracleDriver.connect true makedsn cx_connect (Oracle.init h username pw pt sn)
               = (false, Oracle.init h username pw pt sn)).
  { unfold OracleDriver.connect. cbn [negb].
    destruct (OracleDriver.get_dsn makedsn (Oracle.init h username pw pt sn)) as [e|dsn];
      [done|].
    cbn. destruct (Hrefuse dsn) as [e ->]. done. }
  rewrite Hc. done.
Qed.

(** A successful login records where the agent is connected.  The agent
    ends connected with the handle the driver returned, the script is rerun,
    and the session of the agent holds the host, the user name, the service
    name, the time of connection and the time of the update; every other key
    of the session, and with it the absence of the password, is as before. *)
Theorem successful_connect_records_session (a : DatabaseChatAgent.Agent)
    (h : string) (pt : Z) (sn username pw : string) (connected_at now : Z)
    (st : SessionState) (d : gmap string PyVal) (dsn : string)
    (handle : Oracle.Connection) :
  PyStr.truthy username = true ->
  PyStr.truthy pw = true ->
  OracleDriver.get_dsn makedsn (Oracle.init h username pw pt sn) = inr dsn ->
  cx_connect username pw dsn = inr handle ->
  BaseAgent.get_session_data (DatabaseChatAgent.base a) st = SessionV d ->
  let '(a', flow) :=
    OracleDriver.connect_action true makedsn cx_connect a h pt sn username pw true
      connected_at now st in
  DatabaseChatAgent.connection_status a' = "connected"
  /\ (exists c : Oracle.OracleConnector,
         DatabaseChatAgent.oracle_connector a' = Some c
         /\ Oracle.connection c = Some handle)
  /\ exists (st' : SessionState) (d' : gmap string PyVal),
       flow = Rerun st'
       /\ st' !! BaseAgent.session_key (DatabaseChatAgent.base a) = Some (SessionV d')
       /\ d' !! "host" = Some (VStr h)
       /\ d' !! "username" = Some (VStr username)
       /\ d' !! "service_name" = Some (VStr sn)
       /\ d' !! "connected_at" = Some (VTime connected_at)
       /\ d' !! "last_activity" = Some (VTime now)
       /\ d' !! "password" = d !! "password"
       /\ forall k : string,
            ~ In k ["host"; "username"; "service_name"; "connected_at"; "last_activity"] ->
            d' !! k = d !! k.
Proof.
  intros Hu Hp Hdsn Hconn Hd.
  unfold OracleDriver.connect_action. cbn [negb]. rewrite Hu, Hp. cbn [andb].
  unfold OracleDriver.connect. cbn [negb]. rewrite Hdsn. cbn [Oracle.user Oracle.password Oracle.init].
  rewrite Hconn.
  set (entries := <["host" := VStr h]>
                    (<["username" := VStr username]>
                       (<["service_name" := VStr sn]>
                          (<["connected_at" := VTime connected_at]> (∅ : gmap string PyVal))))).
  assert (He : forall (m : gmap string PyVal) (k : string),
             ~ In k ["host"; "username"; "service_name"; "connected_at"; "last_activity"] ->
             (<["last_activity" := VTime now]> (entries ∪ m)) !! k = m !! k).
  { intros m k Hk. simpl in Hk.
    rewrite lookup_insert_ne by (intros <-; tauto).
    rewrite lookup_union. subst entries.
    rewrite !lookup_insert_ne by (intros <-; tauto).
    rewrite lookup_empty. by destruct (m !! k). }
  assert (Hf : forall m : gmap string PyVal,
             let d' := <["last_activity" := VTime now]> (entries ∪ m) in
             d' !! "host" = Some (VStr h)
             /\ d' !! "username" = Some (VStr username)
             /\ d' !! "service_name" = Some (VStr sn)
             /\ d' !! "connected_at" = Some (VTime connected_at)
             /\ d' !! "last_activity" = Some (VTime now)).
  { intros m d'. subst d' entries.
    repeat split; try apply lookup_insert_eq;
      (rewrite lookup_insert_ne by done); apply lookup_union_Some_l; reflexivity. }
  unfold BaseAgent.get_session_data in Hd.
  destruct (st !! BaseAgent.session_key (DatabaseChatAgent.base a)) as [[d0| |]|] eqn:Hs;
    simpl in Hd; try discriminate Hd; injection Hd as <-.
  - unfold BaseAgent.update_session_data, BaseAgent.get_session_data.
    rewrite lookup_insert_eq. simpl.
    split; [done|]. split; [eexists; split; [reflexivity|done]|].
    eexists _, (<["last_activity" := VTime now]> (entries ∪ d0)).
    split; [reflexivity|]. split.
    { rewrite lookup_insert_eq. do 2 f_equal. f_equal.
      apply map_eq. intros k. rewrite !lookup_union.
      destruct (entries !! k), (d0 !! k); done. }
    destruct (Hf d0) as (?&?&?&?&?).
    do 5 (split; [done|]).
    split; [by rewrite He by (simpl; intuition discriminate)|].
    intros k Hk. by rewrite He.
  - unfold BaseAgent.update_session_data, BaseAgent.get_session_data.
    rewrite Hs. simpl.
    split; [done|]. split; [eexists; split; [reflexivity|done]|].
    eexists _, (<["last_activity" := VTime now]> (entries ∪ ∅)).
    split; [reflexivity|]. split; [by rewrite lookup_insert_eq|].
    destruct (Hf ∅) as (?&?&?&?&?).
    do 5 (split; [done|]).
    split; [by rewrite He by (simpl; intuition discriminate)|].
    intros k Hk. by rewrite He.
Qed.

End Connecting.

Lemma failed_reconnect_keeps_status_witness :
  DatabaseChatAgent.connection_status
    (fst (OracleDriver.connect_action true Sample.sample_makedsn Sample.refusing_driver
            Sample.connected_db_agent "localhost" 1521 "ORCL" "scott" "wrong" true 10 11 ∅))
  = "connected"
  /\ DatabaseChatAgent.oracle_connector
       (fst (OracleDriver.connect_action true Sample.sample_makedsn Sample.refusing_driver
               Sample.connected_db_agent "localhost" 1521 "ORCL" "scott" "wrong" true 10 11 ∅))
     = Some (Oracle.init "localhost" "scott" "wrong" 1521 "ORCL").
Proof.
  pose proof (failed_reconnect_keeps_status Sample.sample_makedsn Sample.refusing_driver
                Sample.connected_db_agent "localhost" 1521 "ORCL" "scott" "wrong" 10 11 ∅
                eq_refl eq_refl (fun dsn => ex_intro _ _ eq_refl)) as H.
  destruct (OracleDriver.connect_action true Sample.sample_makedsn Sample.refusing_driver
              Sample.connected_db_agent "localhost" 1521 "ORCL" "scott" "wrong" true 10 11 ∅)
    as [a' flow].
  destruct H as (_ & H2 & H3 & _). split; [exact H2 | exact H3].
Defined.

Lemma successful_connect_records_session_witness :
  DatabaseChatAgent.connection_status
    (fst (OracleDriver.connect_action true Sample.sample_makedsn Sample.accepting_driver
            Sample.db_agent "localhost" 1521 "ORCL" "scott" "tiger" true 10 11
            Sample.store_with_history))
  = "connected".
Proof.
  pose proof (successful_connect_records_session Sample.sample_makedsn
                Sample.accepting_driver Sample.db_agent "localhost" 1521 "ORCL" "scott"
                "tiger" 10 11 Sample.store_with_history (BaseAgent.new_session 0)
                "localhost:1521/ORCL" Sample.two_table_connection
                eq_refl eq_refl eq_refl eq_refl eq_refl) as H.
  destruct (OracleDriver.connect_action true Sample.sample_makedsn Sample.accepting_driver
              Sample.db_agent "localhost" 1521 "ORCL" "scott" "tiger" true 10 11
              Sample.store_with_history) as [a' flow].
  destruct H as [H _]. exact H.
Defined.

(** ** What the translators can produce *)

Section TranslatorOutput.

Import DatabaseChatAgent.

Lemma take_digits_idempotent (s : string) :
  PyStr.take_digits (PyStr.take_digits s) = PyStr.take_digits s.
Proof.
  induction s as [|c s IH]; simpl; [done|].
  destruct (PyStr.is_digit c) eqn:E; simpl; [|done]. by rewrite E, IH.
Qed.

Lemma first_number_is_numeral (s n : string) :
  PyStr.first_number s = Some n -> PyStr.take_digits n = n /\ n <> "".
Proof.
  induction s as [|c s IH]; simpl; [done|].
  destruct (PyStr.is_digit c) eqn:E; [|exact IH].
  intros [= <-]. split.
  - simpl. rewrite E. by rewrite take_digits_idempotent.
  - done.
Qed.

Lemma find_some_in {A : Type} (f : A -> bool) (l : list A) (x : A) :
  find f l = Some x -> In x l /\ f x = true.
Proof. apply List.find_some. Qed.

(** For input in the ASCII range, every statement the bound translator
    produces is one of its three templates, filled with a table of the
    catalog that occurs in the upper-cased input and, for the row limit, with
    a non-empty string of decimal digits: no other text of the user reaches
    the SQL. *)
Theorem bound_translator_output_shape (tables : list string) (user_input query : string) :
  PyStr.is_ascii user_input = true ->
  natural_language_to_sql_over tables user_input = Some query ->
  exists t : string,
    In t tables
    /\ PyStr.str_in t (PyStr.upper user_input) = true
    /\ (query = "SELECT * FROM " +:+ t
        \/ query = "SELECT COUNT(*) FROM " +:+ t
        \/ exists n : string,
             query = "SELECT * FROM " +:+ t +:+ " WHERE ROWNUM <= " +:+ n
             /\ PyStr.take_digits n = n /\ n <> "").
Proof.
  intros _. unfold natural_language_to_sql_over.
  destruct (extract_table_name tables user_input) as [t|] eqn:Ht.
  2: { repeat match goal with |- context [if ?b then _ else _] => destruct b end; done. }
  unfold extract_table_name in Ht. apply find_some_in in Ht as [Hin Hocc].
  destruct (PyStr.truthy t).
  2: { repeat match goal with |- context [if ?b then _ else _] => destruct b end; done. }
  destruct (PyStr.str_in "all" (PyStr.lower user_input)
            && PyStr.str_in "from" (PyStr.lower user_input)).
  { intros [= <-]. exists t. eauto. }
  destruct (PyStr.str_in "count" (PyStr.lower user_input)).
  { intros [= <-]. exists t. eauto. }
  destruct (PyStr.any_in ["top"; "first"; "limit"] (PyStr.lower user_input)); [|done].
  intros [= <-]. exists t. split; [done|]. split; [done|]. right. right.
  destruct (PyStr.first_number user_input) as [n|] eqn:Hn; simpl.
  - exists n. split; [done|]. by apply first_number_is_numeral in Hn.
  - exists "10". split; [done|]. split; [reflexivity|done].
Qed.

Lemma bound_translator_output_shape_witness :
  exists t : string,
    In t get_table_list
    /\ PyStr.str_in t (PyStr.upper "first 25 orders; drop table orders") = true
    /\ ("SELECT * FROM ORDERS WHERE ROWNUM <= 25" = "SELECT * FROM " +:+ t
        \/ "SELECT * FROM ORDERS WHERE ROWNUM <= 25" = "SELECT COUNT(*) FROM " +:+ t
        \/ exists n : string,
             "SELECT * FROM ORDERS WHERE ROWNUM <= 25"
             = "SELECT * FROM " +:+ t +:+ " WHERE ROWNUM <= " +:+ n
             /\ PyStr.take_digits n = n /\ n <> "").
Proof.
  apply (bound_translator_output_shape get_table_list
           "first 25 orders; drop table orders"
           "SELECT * FROM ORDERS WHERE ROWNUM <= 25").
  - reflexivity.
  - reflexivity.
Defined.

(** For a catalog and an input in the ASCII range, every statement the
    earlier translator produces is the table listing or one of its four
    templates over a table of the catalog whose lower-cased name occurs in
    the lower-cased input. *)
Theorem earlier_translator_output_shape (tables : list string) (user_input query : string) :
  PyStr.is_ascii user_input = true ->
  Forall (fun t => PyStr.is_ascii t = true) tables ->
  Earlier.translate tables user_input = Some query ->
  query = "SELECT table_name FROM user_tables ORDER BY table_name"
  \/ exists t : string,
       In t tables
       /\ PyStr.str_in (PyStr.lower t) (PyStr.lower user_input) = true
       /\ (query = "SELECT COUNT(*) as total_rows FROM " +:+ t
           \/ query = "SELECT * FROM " +:+ t +:+ " WHERE ROWNUM <= 10"
           \/ query = "SELECT * FROM " +:+ t
           \/ query = "SELECT column_name, data_type, nullable FROM user_tab_columns WHERE table_name = '"
                      +:+ t +:+ "' ORDER BY column_id").
Proof.
  intros _ _. unfold Earlier.translate.
  destruct (PyStr.any_in ["show"; "list"; "display"] (PyStr.lower user_input)
            && PyStr.str_in "table" (PyStr.lower user_input)).
  { intros [= <-]. by left. }
  destruct (Earlier.mentioned_table tables user_input) as [t|] eqn:Ht.
  2: { destruct (_ && _); [intros [= <-]; by left | done]. }
  unfold Earlier.mentioned_table in Ht. apply find_some_in in Ht as [Hin Hocc].
  destruct (PyStr.truthy t).
  2: { destruct (_ && _); [intros [= <-]; by left | done]. }
  destruct (PyStr.any_in ["count"; "how many"; "total"] (PyStr.lower user_input)).
  { intros [= <-]. right. exists t. eauto. }
  destruct (PyStr.any_in ["show"; "display"; "list"; "all"] (PyStr.lower user_input)).
  { destruct (PyStr.any_in ["first"; "top"; "10"; "sample"] (PyStr.lower user_input));
      intros [= <-]; right; exists t; eauto 6. }
  destruct (PyStr.str_in "describe" (PyStr.lower user_input)
            || PyStr.str_in "structure" (PyStr.lower user_input)).
  { intros [= <-]. right. exists t. eauto 7. }
  destruct (_ && _); [intros [= <-]; by left | done].
Qed.

Lemma earlier_translator_output_shape_witness :
  "SELECT COUNT(*) as total_rows FROM ORDERS"
  = "SELECT table_name FROM user_tables ORDER BY table_name"
  \/ exists t : string,
       In t ["CUSTOMERS"; "ORDERS"]
       /\ PyStr.str_in (PyStr.lower t) (PyStr.lower "how many orders") = true
       /\ ("SELECT COUNT(*) as total_rows FROM ORDERS"
           = "SELECT COUNT(*) as total_rows FROM " +:+ t
           \/ "SELECT COUNT(*) as total_rows FROM ORDERS"
              = "SELECT * FROM " +:+ t +:+ " WHERE ROWNUM <= 10"
           \/ "SELECT COUNT(*) as total_rows FROM ORDERS" = "SELECT * FROM " +:+ t
           \/ "SELECT COUNT(*) as total_rows FROM ORDERS"
              = "SELECT column_name, data_type, nullable FROM user_tab_columns WHERE table_name = '"
                +:+ t +:+ "' ORDER BY column_id").
Proof.
  apply (earlier_translator_output_shape ["CUSTOMERS"; "ORDERS"] "how many orders").
  - reflexivity.
  - repeat constructor.
  - reflexivity.
Defined.

End TranslatorOutput.

(** ** Generated SQL is read-only *)

Section ReadOnly.

Import DatabaseChatAgent.

Lemma rstrip_cons_not_space (c : ascii) (s : string) :
  PyStr.is_space c = false -> PyStr.rstrip (String c s) = String c (PyStr.rstrip s).
Proof. intros H. simpl. rewrite H. by destruct (PyStr.rstrip s). Qed.

Lemma startswith_append (p s : string) :
  PyStr.startswith p s = true -> exists rest : string, s = p +:+ rest.
Proof.
  revert s. induction p as [|a p IH]; intros s H.
  - by exists s.
  - destruct s as [|b s]; [discriminate H|]. simpl in H.
    destruct (Ascii.eqb a b) eqn:E; [|discriminate H].
    apply Ascii.eqb_eq in E. subst b.
    destruct (IH s H) as [rest ->]. by exists rest.
Qed.

(** A statement that starts with SELECT still does after [strip()] and
    [upper()]. *)
Lemma select_prefix_survives (s : string) :
  PyStr.startswith "SELECT" s = true ->
  PyStr.startswith "SELECT" (PyStr.upper (PyStr.strip s)) = true.
Proof.
  intros H. apply startswith_append in H as [rest ->].
  change ("SELECT" +:+ rest)
    with (String "S" (String "E" (String "L" (String "E" (String "C" (String "T" rest)))))).
  unfold PyStr.strip.
  change (PyStr.lstrip
            (String "S" (String "E" (String "L" (String "E" (String "C" (String "T" rest)))))))
    with (String "S" (String "E" (String "L" (String "E" (String "C" (String "T" rest)))))).
  rewrite !rstrip_cons_not_space by reflexivity.
  reflexivity.
Qed.

Lemma earlier_translate_select (tables : list string) (user_input query : string) :
  Earlier.translate tables user_input = Some query -> PyStr.startswith "SELECT" query = true.
Proof.
  unfold Earlier.translate.
  repeat match goal with
    | |- context [match Earlier.mentioned_table ?a ?b with _ => _ end] =>
        destruct (Earlier.mentioned_table a b)
    | |- context [if ?b then _ else _] => destruct b
    end; intros H; try discriminate H; injection H as <-; reflexivity.
Qed.

Lemma bound_translate_select (tables : list string) (user_input query : string) :
  natural_language_to_sql_over tables user_input = Some query ->
  PyStr.startswith "SELECT" query = true.
Proof.
  unfold natural_language_to_sql_over.
  repeat match goal with
    | |- context [match extract_table_name ?a ?b with _ => _ end] =>
        destruct (extract_table_name a b)
    | |- context [if ?b then _ else _] => destruct b
    end; intros H; try discriminate H; injection H as <-; reflexivity.
Qed.

Lemma execute_select_never_commits (c : Oracle.OracleConnector) (query : string)
    (log : list Oracle.DriverCall) :
  PyStr.startswith "SELECT" (PyStr.upper (PyStr.strip query)) = true ->
  exists calls : list Oracle.DriverCall,
    snd (Oracle.execute_query c query log) = log ++ calls /\ ~ In Oracle.CallCommit calls.
Proof.
  intros Hs. unfold Oracle.execute_query. rewrite Hs.
  destruct (Oracle.connection c) as [h|].
  - destruct (Oracle.db_run h query) as [e|df]; simpl.
    + eexists. split; [reflexivity|]. simpl. intuition discriminate.
    + eexists. split; [by rewrite <- app_assoc|]. simpl. intuition discriminate.
  - exists []. split; [by rewrite app_nil_r|]. simpl. tauto.
Qed.

(** Whatever either translator produces starts with SELECT, so running it
    through [execute_query] never reaches [commit()]: the assistant cannot
    change the database, whatever the user types and whatever the catalog
    holds. *)
Theorem generated_sql_never_commits (tables : list string) (user_input query : string)
    (c : Oracle.OracleConnector) (log : list Oracle.DriverCall) :
  Earlier.translate tables user_input = Some query
  \/ natural_language_to_sql_over tables user_input = Some query ->
  PyStr.startswith "SELECT" (PyStr.upper (PyStr.strip query)) = true
  /\ exists calls : list Oracle.DriverCall,
       snd (Oracle.execute_query c query log) = log ++ calls
       /\ ~ In Oracle.CallCommit calls.
Proof.
  intros H.
  assert (Hs : PyStr.startswith "SELECT" (PyStr.upper (PyStr.strip query)) = true).
  { apply select_prefix_survives.
    destruct H as [H|H]; [by eapply earlier_translate_select | by eapply bound_translate_select]. }
  split; [exact Hs|]. by apply execute_select_never_commits.
Qed.

Lemma generated_sql_never_commits_witness :
  exists calls : list Oracle.DriverCall,
    snd (Oracle.execute_query Sample.connected_connector
           "SELECT COUNT(*) as total_rows FROM ORDERS" [])
    = [] ++ calls
    /\ ~ In Oracle.CallCommit calls.
Proof.
  apply (generated_sql_never_commits ["CUSTOMERS"; "ORDERS"] "how many orders"
           "SELECT COUNT(*) as total_rows FROM ORDERS" Sample.connected_connector []).
  left. reflexivity.
Defined.

End ReadOnly.

(** ** Rules of the earlier translator that cannot fire *)

Section DeadRule.

Import DatabaseChatAgent.

Lemma startswith_shorter (p q s : string) :
  PyStr.startswith p q = true -> PyStr.startswith q s = true -> PyStr.startswith p s = true.
Proof.
  revert q s. induction p as [|a p IH]; intros q s Hpq Hqs; [done|].
  destruct q as [|b q]; [discriminate Hpq|]. destruct s as [|c s]; [discriminate Hqs|].
  simpl in *.
  destruct (Ascii.eqb a b) eqn:E1; [|discriminate Hpq].
  destruct (Ascii.eqb b c) eqn:E2; [|discriminate Hqs].
  apply Ascii.eqb_eq in E1, E2. subst. rewrite Ascii.eqb_refl. by eapply IH.
Qed.

Lemma str_in_shorter (p q s : string) :
  PyStr.startswith p q = true -> PyStr.str_in q s = true -> PyStr.str_in p s = true.
Proof.
  intros Hpq. induction s as [|c s IH]; simpl; intros H.
  - rewrite orb_false_r in *. by eapply startswith_shorter.
  - apply orb_true_iff in H. apply orb_true_iff. destruct H as [H|H].
    + left. by eapply startswith_shorter.
    + right. by apply IH.
Qed.

(** The earlier translator answers with the table listing exactly when the
    input has one of "show", "list", "display" together with "table": its
    last rule ("tables" with "show" or "list") never decides anything, and
    no statement about a single table is the listing. *)
Theorem listing_only_by_first_rule (tables : list string) (user_input : string) :
  Earlier.translate tables user_input
  = Some "SELECT table_name FROM user_tables ORDER BY table_name"
  <-> PyStr.any_in ["show"; "list"; "display"] (PyStr.lower user_input)
      && PyStr.str_in "table" (PyStr.lower user_input) = true.
Proof.
  unfold Earlier.translate.
  destruct (PyStr.any_in ["show"; "list"; "display"] (PyStr.lower user_input)
            && PyStr.str_in "table" (PyStr.lower user_input)) eqn:R1; [done|].
  assert (R2 : PyStr.str_in "tables" (PyStr.lower user_input)
               && PyStr.any_in ["show"; "list"] (PyStr.lower user_input) = false).
  { destruct (PyStr.str_in "tables" (PyStr.lower user_input)) eqn:T; [|done].
    apply (str_in_shorter "table") in T; [|reflexivity].
    rewrite T, andb_true_r in R1. unfold PyStr.any_in in *. simpl in *.
    destruct (PyStr.str_in "show" (PyStr.lower user_input));
      destruct (PyStr.str_in "list" (PyStr.lower user_input)); done. }
  rewrite R2. split; [|done].
  destruct (Earlier.mentioned_table tables user_input) as [t|]; [|done].
  repeat match goal with |- context [if ?b then _ else _] => destruct b end;
    intros H; try discriminate H; injection H as H; vm_compute in H; discriminate H.
Qed.

End DeadRule.

(** ** The bound dispatcher and the translator *)

(** Whenever the bound [process_input] hands the input to
    [handle_general_query] (that is, for every choice of the three handlers
    the answer is the one of [handle_general_query]), the translator cannot
    answer with its COUNT template: any input that contains "count" has
    already been routed to the display or the count handler. *)
Theorem chat_never_reaches_count_template (a : DatabaseChatAgent.Agent) (user_input : string)
    (tables : list string) (t : string) :
  (forall display count general : string -> string,
      MockAgent.process_input display count general a user_input = general user_input) ->
  DatabaseChatAgent.natural_language_to_sql_over tables user_input
  <> Some ("SELECT COUNT(*) FROM " +:+ t).
Proof.
  intros Hg.
  specialize (Hg (fun _ => "display") (fun _ => "count") (fun _ => "general")).
  unfold MockAgent.process_input in Hg.
  destruct (negb (String.eqb (DatabaseChatAgent.connection_status a) "connected"));
    [discriminate Hg|].
  destruct (PyStr.any_in ["show"; "list"; "display"] (PyStr.lower user_input));
    [discriminate Hg|].
  destruct (PyStr.any_in ["count"; "how many"; "total"] (PyStr.lower user_input)) eqn:Ec;
    [discriminate Hg|].
  clear Hg. unfold PyStr.any_in in Ec. simpl in Ec.
  apply orb_false_iff in Ec as [Ec _].
  unfold DatabaseChatAgent.natural_language_to_sql_over. rewrite Ec.
  repeat match goal with
    | |- context [match DatabaseChatAgent.extract_table_name ?x ?y with _ => _ end] =>
        destruct (DatabaseChatAgent.extract_table_name x y)
    | |- context [if ?b then _ else _] => destruct b
    end; intros H; try discriminate H; injection H as H; vm_compute in H; discriminate H.
Qed.

Lemma chat_never_reaches_count_template_witness :
  DatabaseChatAgent.natural_language_to_sql_over DatabaseChatAgent.get_table_list
    "all from customers"
  <> Some ("SELECT COUNT(*) FROM " +:+ "CUSTOMERS").
Proof.
  apply (chat_never_reaches_count_template Sample.connected_db_agent "all from customers").
  intros display count general. reflexivity.
Defined.

(** ** The earlier [process_input] *)



(** ** The earlier chat input *)

Section EarlierChat.

Variable process_input : string -> SessionState -> exn + string.

(** The earlier chat input has no exception handler.  While the agent is
    not connected it never consults [process_input] and appends the prompt
    and the fixed reply; once connected, a successful [process_input] gives
    the prompt and its answer, with role "assistant"; a failing one lets the
    exception escape with only the prompt appended. *)
Theorem earlier_chat_turn_outcomes (a : DatabaseChatAgent.Agent) (prompt : string)
    (now_user now_agent : Z) (st : SessionState) (prior : list Message) :
  PyStr.truthy prompt = true ->
  BaseAgent.messages (DatabaseChatAgent.base a) st = Some prior ->
  let b := DatabaseChatAgent.base a in
  let asked := mkMessage "user" prompt now_user [] in
  let st1 := <[BaseAgent.conversation_key b := ConversationV (prior ++ [asked])]> st in
  let turn := OracleBackedAgent.chat_turn process_input a prompt now_user now_agent st in
  if String.eqb (DatabaseChatAgent.connection_status a) "connected" then
    match process_input prompt st1 with
    | inr answer =>
        exists st2 : SessionState,
          turn = Return st2
          /\ BaseAgent.messages b st2
             = Some (prior ++ [asked; mkMessage "assistant" answer now_agent []])
    | inl e => turn = Raise e st1 /\ BaseAgent.messages b st1 = Some (prior ++ [asked])
    end
  else
    exists st2 : SessionState,
      turn = Return st2
      /\ BaseAgent.messages b st2
         = Some (prior ++ [asked;
                           mkMessage "assistant"
                             "I need to connect to a database first. Please configure the connection in the Connection Setup tab."
                             now_agent []]).
Proof.
  intros Hp Hprior b asked st1 turn. subst turn.
  unfold OracleBackedAgent.chat_turn. rewrite Hp.
  rewrite (add_to_conversation_appends _ _ _ _ _ _ _ Hprior). fold b. cbn [default].
  fold asked. fold st1.
  assert (Hm1 : BaseAgent.messages b st1 = Some (prior ++ [asked])) by apply messages_insert.
  destruct (String.eqb (DatabaseChatAgent.connection_status a) "connected").
  - destruct (process_input prompt st1) as [e|answer]; [done|].
    rewrite (add_to_conversation_appends _ _ _ _ _ _ _ Hm1).
    eexists. split; [reflexivity|]. rewrite messages_insert, <- app_assoc. done.
  - rewrite (add_to_conversation_appends _ _ _ _ _ _ _ Hm1).
    eexists. split; [reflexivity|]. rewrite messages_insert, <- app_assoc. done.
Qed.

End EarlierChat.

Lemma earlier_chat_turn_outcomes_witness :
  OracleBackedAgent.chat_turn Sample.failing_process_input Sample.connected_db_agent
    "how many orders" 7 8 Sample.store_with_history
  = Raise (Exception "connection lost")
      (<[BaseAgent.conversation_key Sample.chat_agent
         := ConversationV [Sample.earlier_message; mkMessage "user" "how many orders" 7 []]]>
         Sample.store_with_history).
Proof.
  pose proof (earlier_chat_turn_outcomes Sample.failing_process_input
                Sample.connected_db_agent "how many orders" 7 8 Sample.store_with_history
                [Sample.earlier_message] eq_refl eq_refl) as H.
  simpl in H. destruct H as [H _]. exact H.
Defined.

(** ** Blank input *)

Lemma lstrip_blank (s : string) :
  Forall (fun c => PyStr.is_space c = true) (list_ascii_of_string s) ->
  PyStr.lstrip s = "".
Proof.
  induction s as [|c s IH]; simpl; [done|].
  intros H. apply Forall_cons_1 in H as [Hc H]. rewrite Hc. by apply IH.
Qed.

Lemma strip_keeps_text (s : string) :
  ~ Forall (fun c => PyStr.is_space c = true) (list_ascii_of_string s) ->
  PyStr.truthy (PyStr.strip s) = true.
Proof.
  unfold PyStr.strip. induction s as [|c s IH]; simpl.
  - intros H. exfalso. apply H. constructor.
  - destruct (PyStr.is_space c) eqn:Ec.
    + intros H. apply IH. intros Hs. apply H. by constructor.
    + intros _. by rewrite rstrip_cons_not_space.
Qed.

(** For input in the ASCII range: input made of white space only (the
    empty input included) is ignored by the chat driver, that is, Send
    changes nothing, [process_input] is not consulted and the call returns
    normally; any other input passes the guard of the driver. *)
Theorem blank_input_is_ignored (process_input : string -> SessionState -> exn + string)
    (a : BaseAgent.Agent) (user_input : string) (submitted : bool)
    (now_user now_agent : Z) (st : SessionState) :
  PyStr.is_ascii user_input = true ->
  (Forall (fun c => PyStr.is_space c = true) (list_ascii_of_string user_input) ->
   BaseAgent.render_chat_input process_input a user_input submitted false now_user now_agent st
   = Return st)
  /\ (~ Forall (fun c => PyStr.is_space c = true) (list_ascii_of_string user_input) ->
      PyStr.truthy (PyStr.strip user_input) = true).
Proof.
  intros _. split.
  - intros H. unfold BaseAgent.render_chat_input, PyStr.strip.
    rewrite (lstrip_blank _ H). simpl. by rewrite andb_false_r.
  - apply strip_keeps_text.
Qed.

Lemma blank_input_is_ignored_witness :
  BaseAgent.render_chat_input Sample.failing_process_input Sample.chat_agent
    "  " true false 7 8 Sample.store_with_history
  = Return Sample.store_with_history.
Proof.
  apply (blank_input_is_ignored Sample.failing_process_input Sample.chat_agent "  "
           true 7 8 Sample.store_with_history).
  - reflexivity.
  - repeat constructor.
Defined.

(** ** The rendered conversation *)

(** [render_conversation] shows the invitation for an empty conversation
    and otherwise one bubble per message for the last twenty messages (all
    of them when there are fewer), in their order; a message of role "user"
    is shown as "You", any other under the name of the agent. *)
Theorem render_conversation_window (a : BaseAgent.Agent) (conversation : list Message) :
  match conversation with
  | [] =>
      Conversation.render_conversation a conversation
      = [Conversation.Invitation ("Start a conversation with " +:+ name (BaseAgent.config a))]
  | _ =>
      exists older shown : list Message,
        conversation = older ++ shown
        /\ length shown = Nat.min 20 (length conversation)
        /\ Forall2
             (fun message bubble =>
                bubble
                = Conversation.Bubble
                    (if String.eqb (role message) "user" then "You"
                     else name (BaseAgent.config a))
                    (content message) (timestamp message))
             shown (Conversation.render_conversation a conversation)
  end.
Proof.
  destruct conversation as [|m conversation]; [done|].
  exists (take (length (m :: conversation) - 20) (m :: conversation)),
         (drop (length (m :: conversation) - 20) (m :: conversation)).
  split; [by rewrite take_drop|].
  split; [rewrite length_drop; lia|].
  unfold Conversation.render_conversation, Conversation.slice_last.
  generalize (drop (length (m :: conversation) - 20) (m :: conversation)).
  intros l. induction l as [|x l IH]; simpl; constructor; [|exact IH].
  by destruct (String.eqb (role x) "user").
Qed.

(** ** Disconnecting *)

(** The Disconnect action by the state it starts from.  Without a
    connector, and with a connector that holds no connection, the agent ends
    disconnected and without a connector and the driver is not called.  With
    a live connection the driver is asked to close it once: if that
    succeeds the agent ends disconnected and without a connector; if it
    raises, the exception escapes and the agent is exactly as it was, status
    and connector included. *)
Theorem disconnect_outcomes (a : DatabaseChatAgent.Agent) (log : list Oracle.DriverCall) :
  let disconnected :=
    DatabaseChatAgent.mkAgent (DatabaseChatAgent.base a) None "disconnected" in
  DatabaseChatAgent.Earlier.disconnect a log
  = match DatabaseChatAgent.oracle_connector a with
    | None => (None, disconnected, log)
    | Some c =>
        match Oracle.connection c with
        | None => (None, disconnected, log)
        | Some h =>
            match Oracle.db_close h with
            | None => (None, disconnected, log ++ [Oracle.CallConnectionClose])
            | Some e => (Some e, a, log ++ [Oracle.CallConnectionClose])
            end
        end
    end.
Proof.
  unfold DatabaseChatAgent.Earlier.disconnect.
  destruct a as [b [c|] s]; simpl; [|done].
  unfold Oracle.close. destruct (Oracle.connection c) as [h|] eqn:Hc; [|done].
  destruct (Oracle.db_close h) as [e|] eqn:Hd; done.
Qed.

Lemma close_twice_witness :
  Oracle.close (Oracle.set_connection Sample.connected_connector None)
    [Oracle.CallConnectionClose]
  = (None, Oracle.set_connection Sample.connected_connector None,
     [Oracle.CallConnectionClose]).
Proof.
  apply (close_twice Sample.connected_connector
           (Oracle.set_connection Sample.connected_connector None) []
           [Oracle.CallConnectionClose]).
  reflexivity.
Defined.

(** ** Table matching and missing connections *)

(** For a catalog and an input in the ASCII range: a scan reports no table
    only when no table of the catalog occurs in the input, and a table it
    reports is in the catalog and occurs in the input. *)
Theorem table_scan_sound_and_complete (tables : list string) (user_input : string) :
  PyStr.is_ascii user_input = true ->
  Forall (fun t => PyStr.is_ascii t = true) tables ->
  (DatabaseChatAgent.Earlier.mentioned_table tables user_input = None
   <-> Forall (fun t => PyStr.str_in (PyStr.lower t) (PyStr.lower user_input) = false) tables)
  /\ (DatabaseChatAgent.extract_table_name tables user_input = None
      <-> Forall (fun t => PyStr.str_in t (PyStr.upper user_input) = false) tables)
  /\ (forall t : string,
        DatabaseChatAgent.Earlier.mentioned_table tables user_input = Some t ->
        In t tables /\ PyStr.str_in (PyStr.lower t) (PyStr.lower user_input) = true)
  /\ (forall t : string,
        DatabaseChatAgent.extract_table_name tables user_input = Some t ->
        In t tables /\ PyStr.str_in t (PyStr.upper user_input) = true).
Proof.
  intros _ _.
  assert (Hnone : forall (f : string -> bool) (l : list string),
             find f l = None <-> Forall (fun t => f t = false) l).
  { intros f l. induction l as [|x l IH]; simpl.
    - split; [constructor|done].
    - destruct (f x) eqn:E.
      + split; [done|]. intros H. apply Forall_cons_1 in H as [H _]. congruence.
      + rewrite IH. split; [by constructor|]. intros H. by apply Forall_cons_1 in H as [_ H]. }
  unfold DatabaseChatAgent.Earlier.mentioned_table, DatabaseChatAgent.extract_table_name.
  split; [apply Hnone|]. split; [apply Hnone|].
  split; intros t Ht; by apply find_some_in in Ht.
Qed.

Lemma table_scan_sound_and_complete_witness :
  (DatabaseChatAgent.Earlier.mentioned_table DatabaseChatAgent.get_table_list "tell me a joke"
   = None
   <-> Forall (fun t => PyStr.str_in (PyStr.lower t) (PyStr.lower "tell me a joke") = false)
         DatabaseChatAgent.get_table_list)
  /\ (DatabaseChatAgent.extract_table_name DatabaseChatAgent.get_table_list "tell me a joke"
      = None
      <-> Forall (fun t => PyStr.str_in t (PyStr.upper "tell me a joke") = false)
            DatabaseChatAgent.get_table_list).
Proof.
  destruct (table_scan_sound_and_complete DatabaseChatAgent.get_table_list "tell me a joke")
    as (H1 & H2 & _).
  - reflexivity.
  - repeat constructor.
  - split; [exact H1 | exact H2].
Defined.

(** Without a live connection the earlier translator knows no table: with
    no connector it produces nothing, and with a connector that holds no
    connection it can only produce the table listing, for input that has
    "show", "list" or "display" together with "table"; the driver is not
    called. *)
Theorem translator_without_connection (a : DatabaseChatAgent.Agent) (user_input : string)
    (log : list Oracle.DriverCall) :
  (forall c : Oracle.OracleConnector,
      DatabaseChatAgent.oracle_connector a = Some c -> Oracle.connection c = None) ->
  DatabaseChatAgent.Earlier.natural_language_to_sql a user_input log
  = (match DatabaseChatAgent.oracle_connector a with
     | None => None
     | Some _ =>
         if PyStr.any_in ["show"; "list"; "display"] (PyStr.lower user_input)
            && PyStr.str_in "table" (PyStr.lower user_input)
         then Some "SELECT table_name FROM user_tables ORDER BY table_name"
         else None
     end, log).
Proof.
  intros Hc. unfold DatabaseChatAgent.Earlier.natural_language_to_sql.
  destruct (DatabaseChatAgent.oracle_connector a) as [c|]; [|done].
  unfold Oracle.get_table_list. rewrite (Hc c eq_refl). f_equal.
  unfold DatabaseChatAgent.Earlier.translate.
  destruct (PyStr.any_in ["show"; "list"; "display"] (PyStr.lower user_input)
            && PyStr.str_in "table" (PyStr.lower user_input)) eqn:R1; [done|].
  cbn [DatabaseChatAgent.Earlier.mentioned_table find].
  destruct (PyStr.str_in "tables" (PyStr.lower user_input)) eqn:T; [|done].
  apply (str_in_shorter "table") in T; [|reflexivity].
  rewrite T, andb_true_r in R1. unfold PyStr.any_in in *. simpl in *.
  destruct (PyStr.str_in "show" (PyStr.lower user_input));
    destruct (PyStr.str_in "list" (PyStr.lower user_input)); done.
Qed.

Lemma translator_without_connection_witness :
  DatabaseChatAgent.Earlier.natural_language_to_sql
    (DatabaseChatAgent.mkAgent Sample.chat_agent (Some Sample.fresh_connector) "connected")
    "how many orders" []
  = (None, []).
Proof.
  apply (translator_without_connection
           (DatabaseChatAgent.mkAgent Sample.chat_agent (Some Sample.fresh_connector)
              "connected") "how many orders" []).
  intros c [= <-]. reflexivity.
Defined.

(** ** The tie-break of the table scan *)

Section TieBreak.

Import DatabaseChatAgent.

(** Once the first rule of the earlier translator has not fired, its last
    rule cannot fire either. *)
Lemma last_rule_subsumed (l : string) :
  PyStr.any_in ["show"; "list"; "display"] l && PyStr.str_in "table" l = false ->
  PyStr.str_in "tables" l && PyStr.any_in ["show"; "list"] l = false.
Proof.
  intros R1. destruct (PyStr.str_in "tables" l) eqn:T; [|done].
  apply (str_in_shorter "table") in T; [|reflexivity].
  rewrite T, andb_true_r in R1. unfold PyStr.any_in in *. simpl in *.
  destruct (PyStr.str_in "show" l); destruct (PyStr.str_in "list" l); done.
Qed.

(** C4, as claimed, fails for [extract_table_name] and the translator built
    on it: the name is compared as written with the upper-cased input, so a
    catalog entry that is not in upper case is passed over although its
    lower-cased name occurs in the lower-cased input.  With the catalog
    "orders", "ORDER_ITEMS" both names occur, "orders" comes first and the
    earlier scan keeps it, while the bound scan and the bound translator
    choose ORDER_ITEMS. *)
Lemma bound_scan_passes_over_lower_case_name :
  let tables := ["orders"; "ORDER_ITEMS"] in
  let user_input := "count orders and order_items" in
  PyStr.str_in (PyStr.lower "orders") (PyStr.lower user_input) = true
  /\ PyStr.str_in (PyStr.lower "ORDER_ITEMS") (PyStr.lower user_input) = true
  /\ Earlier.mentioned_table tables user_input = Some "orders"
  /\ Earlier.translate tables user_input = Some "SELECT COUNT(*) as total_rows FROM orders"
  /\ extract_table_name tables user_input = Some "ORDER_ITEMS"
  /\ natural_language_to_sql_over tables user_input
     = Some "SELECT COUNT(*) FROM ORDER_ITEMS"
  /\ ~ (forall (pre post : list string) (t input : string),
          Forall (fun u => PyStr.str_in (PyStr.lower u) (PyStr.lower input) = false) pre ->
          PyStr.str_in (PyStr.lower t) (PyStr.lower input) = true ->
          extract_table_name (pre ++ t :: post) input = Some t).
Proof.
  repeat split; try reflexivity.
  intros H.
  specialize (H [] ["ORDER_ITEMS"] "orders" "count orders and order_items"
                (List.Forall_nil _) eq_refl).
  vm_compute in H. discriminate H.
Qed.

(** C4, amended: [pre] holds the catalog entries before [t] and [post] the
    ones after it, which play no part whether they match or not; the input
    and the names up to [t] are in the ASCII range.
    The earlier translator: when no lower-cased name of [pre] occurs in the
    lower-cased input and the one of [t] does, the scan keeps [t], and the
    statement produced is the table listing (first rule) or the count, first
    rows, all rows or description of [t], chosen by the keywords alone.
    The bound translator: when no name of [pre] as written occurs in the
    upper-cased input and [t] does, [extract_table_name] keeps [t] and the
    statement produced is all rows, the count or the first rows of [t].  For
    names written in upper case the two conditions are the same, so both
    translators choose the same table. *)
Theorem first_catalog_match_wins (pre post : list string) (t user_input : string) :
  PyStr.is_ascii user_input = true ->
  Forall (fun u => PyStr.is_ascii u = true) (pre ++ [t]) ->
  let l := PyStr.lower user_input in
  let tables := pre ++ t :: post in
  (Forall (fun u => PyStr.str_in (PyStr.lower u) l = false) pre ->
   PyStr.str_in (PyStr.lower t) l = true ->
   Earlier.mentioned_table tables user_input = Some t
   /\ Earlier.translate tables user_input
      = if PyStr.any_in ["show"; "list"; "display"] l && PyStr.str_in "table" l then
          Some "SELECT table_name FROM user_tables ORDER BY table_name"
        else if negb (PyStr.truthy t) then None
        else if PyStr.any_in ["count"; "how many"; "total"] l then
          Some ("SELECT COUNT(*) as total_rows FROM " +:+ t)
        else if PyStr.any_in ["show"; "display"; "list"; "all"] l then
          if PyStr.any_in ["first"; "top"; "10"; "sample"] l then
            Some ("SELECT * FROM " +:+ t +:+ " WHERE ROWNUM <= 10")
          else Some ("SELECT * FROM " +:+ t)
        else if PyStr.str_in "describe" l || PyStr.str_in "structure" l then
          Some ("SELECT column_name, data_type, nullable FROM user_tab_columns WHERE table_name = '"
                +:+ t +:+ "' ORDER BY column_id")
        else None)
  /\ (Forall (fun u => PyStr.str_in u (PyStr.upper user_input) = false) pre ->
      PyStr.str_in t (PyStr.upper user_input) = true ->
      extract_table_name tables user_input = Some t
      /\ natural_language_to_sql_over tables user_input
         = if negb (PyStr.truthy t) then None
           else if PyStr.str_in "all" l && PyStr.str_in "from" l then
             Some ("SELECT * FROM " +:+ t)
           else if PyStr.str_in "count" l then Some ("SELECT COUNT(*) FROM " +:+ t)
           else if PyStr.any_in ["top"; "first"; "limit"] l then
             Some ("SELECT * FROM " +:+ t +:+ " WHERE ROWNUM <= "
                   +:+ default "10" (PyStr.first_number user_input))
           else None)
  /\ (Forall (fun u => PyStr.upper u = u) (pre ++ [t]) ->
      (Forall (fun u => PyStr.str_in u (PyStr.upper user_input) = false) pre
       /\ PyStr.str_in t (PyStr.upper user_input) = true)
      <-> (Forall (fun u => PyStr.str_in (PyStr.lower u) l = false) pre
           /\ PyStr.str_in (PyStr.lower t) l = true)).
Proof.
  intros _ _ l tables. subst l tables. split; [|split].
  - intros Hpre Ht.
    assert (Hscan : Earlier.mentioned_table (pre ++ t :: post) user_input = Some t).
    { unfold Earlier.mentioned_table. by apply find_first_match. }
    split; [exact Hscan|]. unfold Earlier.translate. rewrite Hscan.
    destruct (PyStr.any_in ["show"; "list"; "display"] (PyStr.lower user_input)
              && PyStr.str_in "table" (PyStr.lower user_input)) eqn:R1; [done|].
    rewrite (last_rule_subsumed _ R1).
    destruct (PyStr.truthy t); cbn [negb]; [|done].
    repeat match goal with |- context [if ?b then _ else _] => destruct b end; done.
  - intros Hpre Ht.
    assert (Hscan : extract_table_name (pre ++ t :: post) user_input = Some t).
    { unfold extract_table_name. by apply find_first_match. }
    split; [exact Hscan|]. unfold natural_language_to_sql_over. rewrite Hscan.
    destruct (PyStr.truthy t); cbn [negb];
      repeat match goal with |- context [if ?b then _ else _] => destruct b end; done.
  - intros Hup. apply Forall_app in Hup as [Hup Hupt].
    apply Forall_cons_1 in Hupt as [Hupt _].
    rewrite (upper_name_in_upper_input t user_input Hupt).
    split; intros [Hpre Ht]; (split; [|exact Ht]).
    + clear Ht. induction Hpre as [|u pre Hu _ IH]; constructor.
      * apply Forall_cons_1 in Hup as [Hup _].
        by rewrite <- (upper_name_in_upper_input u user_input Hup).
      * apply IH. by apply Forall_cons_1 in Hup as [_ Hup].
    + clear Ht. induction Hpre as [|u pre Hu _ IH]; constructor.
      * apply Forall_cons_1 in Hup as [Hup _].
        by rewrite (upper_name_in_upper_input u user_input Hup).
      * apply IH. by apply Forall_cons_1 in Hup as [_ Hup].
Qed.

(** The tie of the specification: ORDERS and ORDER_ITEMS both occur, ORDERS
    comes first in the catalog and is the table of the statement. *)
Lemma first_catalog_match_wins_witness :
  PyStr.str_in (PyStr.lower "ORDER_ITEMS") (PyStr.lower "count order_items and orders") = true
  /\ Earlier.mentioned_table ["ORDERS"; "ORDER_ITEMS"] "count order_items and orders"
     = Some "ORDERS"
  /\ Earlier.translate ["ORDERS"; "ORDER_ITEMS"] "count order_items and orders"
     = Some "SELECT COUNT(*) as total_rows FROM ORDERS"
  /\ extract_table_name ["ORDERS"; "ORDER_ITEMS"] "count order_items and orders"
     = Some "ORDERS"
  /\ natural_language_to_sql_over ["ORDERS"; "ORDER_ITEMS"] "count order_items and orders"
     = Some "SELECT COUNT(*) FROM ORDERS".
Proof.
  split; [reflexivity|].
  destruct (first_catalog_match_wins [] ["ORDER_ITEMS"] "ORDERS"
              "count order_items and orders") as (H1 & H2 & _).
  - reflexivity.
  - repeat constructor.
  - destruct (H1 (List.Forall_nil _) eq_refl) as [E1 E2].
    destruct (H2 (List.Forall_nil _) eq_refl) as [E3 E4].
    split; [exact E1|]. split; [exact E2|]. split; [exact E3 | exact E4].
Defined.

End TieBreak.
